(** * Smart washroom hygiene score: the scoring pipeline of [main.py]

    A shallow embedding of [HygieneScoreEngine] and of [BackendProcessor]
    (the scoring path, the dispatch of MQTT messages, heartbeats, the
    dashboard and the daily CSV export), followed by the properties of the
    pipeline.

    Conventions of the embedding.
    - Python numbers (the [int] and [float] values of a decoded payload and
      the results of arithmetic on them) are exact rationals [Q]; equality of
      numbers is [Qeq] ([==]).  [round(x, 2)] is rounding to the nearest
      multiple of 1/100, ties to the even neighbour.
    - A decoded payload is well typed: [washroom_id] is a string, every field
      the engine reads is a number.
    - A [datetime] is a number of microseconds on the time line; the
      [isoformat()] rendering of a timestamp is the timestamp itself.
    - An f-string is kept as the sequence of its literal and formatted parts.
    - The module level dictionaries, the two Firebase stores, the calls made
      to them and the console form an explicit [world] that the processor's
      methods pass along.  The clock readings taken while one message is
      processed are one instant [now]. *)

From Stdlib Require Import ZArith QArith Qround Qminmax Lqa Lia String List.
From stdpp Require Import gmap strings list fin_maps sorting.

Open Scope string_scope.
Open Scope Q_scope.

(** ** Numbers *)

(** [a < b] and [a <= b] as the tests of an [if].  [max(a, b)] and
    [min(a, b)] are [Qmax a b] and [Qmin a b]: the same numbers up to [==]. *)
Definition Qltb (a b : Q) : bool :=
  match a ?= b with Lt => true | _ => false end.

Definition Qleb (a b : Q) : bool :=
  match a ?= b with Gt => false | _ => true end.

(** Nearest integer, ties to even. *)
Definition round_half_even (x : Q) : Z :=
  let f := Qfloor x in
  match Qcompare (x - inject_Z f) (1 # 2) with
  | Lt => f
  | Gt => (f + 1)%Z
  | Eq => if Z.even f then f else (f + 1)%Z
  end.

(** [round(x, ndigits)] for a non-negative [ndigits]. *)
Definition round (x : Q) (ndigits : nat) : Q :=
  let scale := inject_Z (10 ^ Z.of_nat ndigits) in
  inject_Z (round_half_even (x * scale)) / scale.

(** ** Dictionaries *)

(** [d.get(k, dflt)] on a dictionary that is only looked up. *)
Definition get {V} (d : gmap string V) (k : string) (dflt : V) : V :=
  match d !! k with Some v => v | None => dflt end.

(** A dictionary that is iterated keeps its insertion order: [items d] is the
    list of its pairs, [setitem] is [d[k] = v]. *)
Fixpoint setitem {V} (k : string) (v : V) (d : list (string * V)) : list (string * V) :=
  match d with
  | [] => [(k, v)]
  | (k', v') :: d' =>
      if String.eqb k' k then (k, v) :: d' else (k', v') :: setitem k v d'
  end.

Fixpoint getitem {V} (d : list (string * V)) (k : string) : option V :=
  match d with
  | [] => None
  | (k', v') :: d' => if String.eqb k' k then Some v' else getitem d' k
  end.

(** [l.append(x)] *)
Definition append {A} (l : list A) (x : A) : list A := (l ++ [x])%list.

(** ** Configuration constants *)

Definition HYGIENE_THRESHOLD : Q := 50.
Definition DECAY_RATE : Q := 0.5.
Definition MAX_DECAY_HOURS : Q := 8.

Definition WEIGHT_PROFILES : gmap string (gmap string Q) :=
  {[ "office" :=
       {[ "air_quality" := 0.30; "floor_moisture" := 0.25; "humidity" := 0.20;
          "temperature" := 0.15; "footfall_density" := 0.10 ]};
     "public" :=
       {[ "air_quality" := 0.35; "floor_moisture" := 0.30; "humidity" := 0.15;
          "temperature" := 0.10; "footfall_density" := 0.10 ]};
     "hospital" :=
       {[ "air_quality" := 0.40; "floor_moisture" := 0.30; "humidity" := 0.20;
          "temperature" := 0.05; "footfall_density" := 0.05 ]};
     "restaurant" :=
       {[ "air_quality" := 0.35; "floor_moisture" := 0.25; "humidity" := 0.20;
          "temperature" := 0.15; "footfall_density" := 0.05 ]} ]}.

(** ** Payloads, anomalies and time *)

(** The numeric fields of a payload, by name. *)
Abbreviation sensor_data := (gmap string Q).

(** A payload as [json.loads] hands it to the processor: its [washroom_id],
    when it has one, and its numeric fields. *)
Record payload := {
  washroom_id_of : option string;
  fields : sensor_data
}.

Abbreviation datetime := Z.

(** The parts of an f-string: literal text (or a string valued field) and
    numbers under a format spec, [""] for a plain [{x}]. *)
Inductive fpart :=
| Lit (s : string)
| Fmt (x : Q) (spec : string).

Abbreviation fstring := (list fpart).

Record anomaly := {
  a_type : string;
  a_severity : string;
  a_message : fstring;
  a_value : option Q
}.

(** [(now - last_cleaned).total_seconds() / 3600] *)
Definition total_seconds (delta : Z) : Q := inject_Z delta / 1000000.

Definition hours_since (now last_cleaned : datetime) : Q :=
  total_seconds (now - last_cleaned) / 3600.

(** ** class HygieneScoreEngine *)

Module HygieneScoreEngine.

Record t := {
  washroom_id : string;
  profile : string;
  weights : gmap string Q
}.

Definition __init__ (washroom_id : string) (profile : string) : t :=
  {| washroom_id := washroom_id;
     profile := profile;
     weights := match WEIGHT_PROFILES !! profile with
                | Some w => w
                | None => WEIGHT_PROFILES !!! "public"
                end |}.

Definition calculate_component_scores (data : sensor_data) : list (string * Q) :=
  let scores := [] in
  let air_quality_raw := get data "air_quality" 50 in
  let scores := setitem "air_quality" (Qmax 0 (100 - air_quality_raw)) scores in
  let moisture_raw := get data "floor_moisture" 30 in
  let scores := setitem "floor_moisture" (Qmax 0 (100 - moisture_raw)) scores in
  let humidity := get data "humidity" 50 in
  let scores :=
    if Qleb 40 humidity && Qleb humidity 60 then
      setitem "humidity" 100 scores
    else if Qltb humidity 40 then
      setitem "humidity" (Qmax 0 (humidity * 2.5)) scores
    else
      setitem "humidity" (Qmax 0 (100 - (humidity - 60) * 2)) scores in
  let temperature := get data "temperature" 23 in
  let scores :=
    if Qleb 20 temperature && Qleb temperature 26 then
      setitem "temperature" 100 scores
    else if Qltb temperature 20 then
      setitem "temperature" (Qmax 0 (temperature * 5)) scores
    else
      setitem "temperature" (Qmax 0 (100 - (temperature - 26) * 5)) scores in
  let footfall := get data "footfall_count" 0 in
  let footfall_score := Qmax 0 (100 - (footfall / 100) * 100) in
  let scores := setitem "footfall_density" footfall_score scores in
  scores.

Definition calculate_weighted_score (self : t) (component_scores : list (string * Q)) : Q :=
  let total_score :=
    fold_left (fun total_score '(component, score) =>
                 let weight := get (weights self) component 0 in
                 total_score + score * weight)
              component_scores 0 in
  round total_score 2.

Definition apply_time_decay (now : datetime) (base_score : Q)
    (last_cleaned : option datetime) : Q :=
  match last_cleaned with
  | None => base_score
  | Some last_cleaned =>
      let hours_since_cleaning := hours_since now last_cleaned in
      if Qleb hours_since_cleaning 1 then base_score
      else
        let decay_hours := Qmin (hours_since_cleaning - 1) MAX_DECAY_HOURS in
        let decay_amount := decay_hours * DECAY_RATE in
        let decayed_score := Qmax 0 (base_score - decay_amount) in
        round decayed_score 2
  end.

Definition detect_anomalies (data : sensor_data) (component_scores : list (string * Q))
    : list anomaly :=
  let anomalies := [] in
  let anomalies :=
    if Qltb 70 (get data "air_quality" 0) then
      append anomalies
        {| a_type := "ODOR_SPIKE"; a_severity := "HIGH";
           a_message := [Lit "Severe odor/ammonia levels detected"];
           a_value := data !! "air_quality" |}
    else anomalies in
  let anomalies :=
    if Qltb 60 (get data "floor_moisture" 0) then
      append anomalies
        {| a_type := "MOISTURE_ALERT"; a_severity := "HIGH";
           a_message := [Lit "Wet floor or potential leakage detected"];
           a_value := data !! "floor_moisture" |}
    else anomalies in
  let temp := get data "temperature" 23 in
  let anomalies :=
    if Qltb temp 10 || Qltb 35 temp then
      append anomalies
        {| a_type := "TEMPERATURE_ANOMALY"; a_severity := "MEDIUM";
           a_message := [Lit "Unusual temperature: "; Fmt temp ""; Lit "°C"];
           a_value := Some temp |}
    else anomalies in
  let anomalies :=
    if Qltb 50 (get data "footfall_count" 0)
       && Qltb (default 100 (getitem component_scores "air_quality")) 40 then
      append anomalies
        {| a_type := "HIGH_USAGE"; a_severity := "MEDIUM";
           a_message := [Lit "High usage detected, cleaning recommended"];
           a_value := data !! "footfall_count" |}
    else anomalies in
  anomalies.

End HygieneScoreEngine.

(** ** class BackendProcessor: the scoring path *)

(** A document of the [washroom_configs] collection. *)
Record config := {
  cfg_profile : option string;
  cfg_threshold : option Q;
  cfg_name : option string;
  cfg_location : option string
}.

Record score_result := {
  r_washroom_id : string;
  r_timestamp : datetime;
  r_sensor_data : payload;
  r_component_scores : list (string * Q);
  r_base_score : Q;
  r_final_score : Q;
  r_decay_applied : Q;
  r_anomalies : list anomaly;
  r_profile : string
}.

(** The value written under [washrooms/<id>/current]. *)
Record current_state := {
  c_score : Q;
  c_timestamp : datetime;
  c_component_scores : list (string * Q);
  c_anomalies : list anomaly
}.

Record notification := {
  n_washroom_id : string;
  n_timestamp : datetime;
  n_type : string;
  n_score : Q;
  n_message : fstring;
  n_anomalies : list anomaly
}.

(** A call to Firestore or to the realtime database. *)
Inductive call :=
| FirestoreGet (collection document : string)
| FirestoreSet (collection document : string)
| FirestoreAdd (collection : string)
| RealtimeSet (path : string)
| RealtimePush (path : string).

(** The shared state: the module level caches [washroom_configs],
    [last_cleaning_times] and [last_scores], the Firestore collections
    [washroom_configs] and [hygiene_logs], the realtime database under
    [washrooms/<id>/current] and [notifications/<id>], the calls made to the
    two stores and the lines printed, oldest first. *)
Record world := {
  washroom_configs : gmap string config;
  last_cleaning_times : gmap string datetime;
  last_scores : gmap string Q;
  firestore_washroom_configs : gmap string config;
  firestore_hygiene_logs : list score_result;
  realtime_current : gmap string current_state;
  realtime_notifications : gmap string (list notification);
  calls : list call;
  console : list fstring
}.

Definition set_washroom_configs (f : gmap string config -> gmap string config) (w : world)
    : world :=
  {| washroom_configs := f (washroom_configs w);
     last_cleaning_times := last_cleaning_times w;
     last_scores := last_scores w;
     firestore_washroom_configs := firestore_washroom_configs w;
     firestore_hygiene_logs := firestore_hygiene_logs w;
     realtime_current := realtime_current w;
     realtime_notifications := realtime_notifications w;
     calls := calls w;
     console := console w |}.

Definition set_last_scores (f : gmap string Q -> gmap string Q) (w : world) : world :=
  {| washroom_configs := washroom_configs w;
     last_cleaning_times := last_cleaning_times w;
     last_scores := f (last_scores w);
     firestore_washroom_configs := firestore_washroom_configs w;
     firestore_hygiene_logs := firestore_hygiene_logs w;
     realtime_current := realtime_current w;
     realtime_notifications := realtime_notifications w;
     calls := calls w;
     console := console w |}.

Definition set_firestore_washroom_configs (f : gmap string config -> gmap string config)
    (w : world) : world :=
  {| washroom_configs := washroom_configs w;
     last_cleaning_times := last_cleaning_times w;
     last_scores := last_scores w;
     firestore_washroom_configs := f (firestore_washroom_configs w);
     firestore_hygiene_logs := firestore_hygiene_logs w;
     realtime_current := realtime_current w;
     realtime_notifications := realtime_notifications w;
     calls := calls w;
     console := console w |}.

Definition set_firestore_hygiene_logs (f : list score_result -> list score_result)
    (w : world) : world :=
  {| washroom_configs := washroom_configs w;
     last_cleaning_times := last_cleaning_times w;
     last_scores := last_scores w;
     firestore_washroom_configs := firestore_washroom_configs w;
     firestore_hygiene_logs := f (firestore_hygiene_logs w);
     realtime_current := realtime_current w;
     realtime_notifications := realtime_notifications w;
     calls := calls w;
     console := console w |}.

Definition set_realtime_current (f : gmap string current_state -> gmap string current_state)
    (w : world) : world :=
  {| washroom_configs := washroom_configs w;
     last_cleaning_times := last_cleaning_times w;
     last_scores := last_scores w;
     firestore_washroom_configs := firestore_washroom_configs w;
     firestore_hygiene_logs := firestore_hygiene_logs w;
     realtime_current := f (realtime_current w);
     realtime_notifications := realtime_notifications w;
     calls := calls w;
     console := console w |}.

Definition set_realtime_notifications
    (f : gmap string (list notification) -> gmap string (list notification))
    (w : world) : world :=
  {| washroom_configs := washroom_configs w;
     last_cleaning_times := last_cleaning_times w;
     last_scores := last_scores w;
     firestore_washroom_configs := firestore_washroom_configs w;
     firestore_hygiene_logs := firestore_hygiene_logs w;
     realtime_current := realtime_current w;
     realtime_notifications := f (realtime_notifications w);
     calls := calls w;
     console := console w |}.

(** One more call to a store. *)
Definition called (c : call) (w : world) : world :=
  {| washroom_configs := washroom_configs w;
     last_cleaning_times := last_cleaning_times w;
     last_scores := last_scores w;
     firestore_washroom_configs := firestore_washroom_configs w;
     firestore_hygiene_logs := firestore_hygiene_logs w;
     realtime_current := realtime_current w;
     realtime_notifications := realtime_notifications w;
     calls := append (calls w) c;
     console := console w |}.

(** [print(line)] *)
Definition print (line : fstring) (w : world) : world :=
  {| washroom_configs := washroom_configs w;
     last_cleaning_times := last_cleaning_times w;
     last_scores := last_scores w;
     firestore_washroom_configs := firestore_washroom_configs w;
     firestore_hygiene_logs := firestore_hygiene_logs w;
     realtime_current := realtime_current w;
     realtime_notifications := realtime_notifications w;
     calls := calls w;
     console := append (console w) line |}.

(** The truth value of [data.get('washroom_id')]: [None] and the empty string
    are false. *)
Definition truth (v : option string) : bool :=
  match v with
  | None => false
  | Some s => negb (String.eqb s "")
  end.

(** [s * n] on strings, and the newline character. *)
Fixpoint str_mul (s : string) (n : nat) : string :=
  match n with
  | O => ""
  | S n' => s ++ str_mul s n'
  end.

Definition newline : string := String (Ascii.ascii_of_nat 10) "".

Module BackendProcessor.

Definition get_washroom_config (washroom_id : string) (w : world) : config * world :=
  match washroom_configs w !! washroom_id with
  | Some cached => (cached, w)
  | None =>
      let w := called (FirestoreGet "washroom_configs" washroom_id) w in
      match firestore_washroom_configs w !! washroom_id with
      | Some doc =>
          (doc, set_washroom_configs (insert washroom_id doc) w)
      | None =>
          let default_config :=
            {| cfg_profile := Some "public";
               cfg_threshold := Some HYGIENE_THRESHOLD;
               cfg_name := Some ("Washroom " ++ washroom_id);
               cfg_location := Some "Unknown" |} in
          let w := called (FirestoreSet "washroom_configs" washroom_id) w in
          let w := set_firestore_washroom_configs (insert washroom_id default_config) w in
          (default_config, set_washroom_configs (insert washroom_id default_config) w)
      end
  end.

Definition store_in_firebase (result : score_result) (w : world) : world :=
  let washroom_id := r_washroom_id result in
  let timestamp := r_timestamp result in
  let w := called (FirestoreAdd "hygiene_logs") w in
  let w := set_firestore_hygiene_logs (fun logs => append logs result) w in
  let w := called (RealtimeSet ("washrooms/" ++ washroom_id ++ "/current")) w in
  set_realtime_current
    (insert washroom_id
       {| c_score := r_final_score result;
          c_timestamp := timestamp;
          c_component_scores := r_component_scores result;
          c_anomalies := r_anomalies result |}) w.

Definition send_cleaner_notification (now : datetime) (washroom_id : string) (score : Q)
    (anomalies : list anomaly) (w : world) : world :=
  let notification :=
    {| n_washroom_id := washroom_id;
       n_timestamp := now;
       n_type := "HYGIENE_ALERT";
       n_score := score;
       n_message := [Lit "Hygiene score dropped to "; Fmt score "";
                     Lit "%. Immediate cleaning required."];
       n_anomalies := anomalies |} in
  let w := called (RealtimePush ("notifications/" ++ washroom_id)) w in
  let w :=
    set_realtime_notifications
      (fun tree => <[washroom_id := append (get tree washroom_id []) notification]> tree) w in
  print [Lit "🔔 ALERT SENT: Washroom "; Lit washroom_id; Lit " - Score: ";
         Fmt score ""; Lit "%"] w.

Definition check_alerts (now : datetime) (result : score_result) (w : world) : world :=
  let washroom_id := r_washroom_id result in
  let score := r_final_score result in
  let '(config, w) := get_washroom_config washroom_id w in
  let threshold := default HYGIENE_THRESHOLD (cfg_threshold config) in
  if Qltb score threshold then
    send_cleaner_notification now washroom_id score (r_anomalies result) w
  else w.

(** The console report that closes [process_sensor_data]. *)
Definition print_report (washroom_id profile : string) (final_score base_score : Q)
    (component_scores : list (string * Q)) (anomalies : list anomaly) (w : world) : world :=
  let item k := default 0 (getitem component_scores k) in
  let w := print [Lit newline; Lit (str_mul "=" 60)] w in
  let w := print [Lit "🚻 Washroom: "; Lit washroom_id; Lit " | Profile: "; Lit profile] w in
  let w := print [Lit "📊 Hygiene Score: "; Fmt final_score ""; Lit "% (Base: ";
                  Fmt base_score ""; Lit "%)"] w in
  let w := print [Lit "🔍 Components: AQ="; Fmt (item "air_quality") ".1f";
                  Lit "% | Moist="; Fmt (item "floor_moisture") ".1f";
                  Lit "% | Humid="; Fmt (item "humidity") ".1f"; Lit "%"] w in
  let w :=
    match anomalies with
    | [] => w
    | _ =>
        let w := print [Lit "⚠️  Anomalies: ";
                        Fmt (inject_Z (Z.of_nat (length anomalies))) ""] w in
        fold_left (fun w anomaly =>
                     print ([Lit "   - "; Lit (a_type anomaly); Lit ": "]
                              ++ a_message anomaly)%list w)
                  anomalies w
    end in
  print [Lit (str_mul "=" 60); Lit newline] w.

Definition process_sensor_data (now : datetime) (data : payload) (w : world) : world :=
  let washroom_id := washroom_id_of data in
  if negb (truth washroom_id) then
    print [Lit "✗ Missing washroom_id in data"] w
  else
    let washroom_id := default "" washroom_id in
    let '(config, w) := get_washroom_config washroom_id w in
    let profile := default "public" (cfg_profile config) in
    let engine := HygieneScoreEngine.__init__ washroom_id profile in
    let component_scores := HygieneScoreEngine.calculate_component_scores (fields data) in
    let base_score := HygieneScoreEngine.calculate_weighted_score engine component_scores in
    let last_cleaned := last_cleaning_times w !! washroom_id in
    let final_score := HygieneScoreEngine.apply_time_decay now base_score last_cleaned in
    let anomalies := HygieneScoreEngine.detect_anomalies (fields data) component_scores in
    let result :=
      {| r_washroom_id := washroom_id;
         r_timestamp := now;
         r_sensor_data := data;
         r_component_scores := component_scores;
         r_base_score := base_score;
         r_final_score := final_score;
         r_decay_applied := base_score - final_score;
         r_anomalies := anomalies;
         r_profile := profile |} in
    let w := store_in_firebase result w in
    let w := check_alerts now result w in
    let w := set_last_scores (insert washroom_id final_score) w in
    print_report washroom_id profile final_score base_score component_scores anomalies w.

End BackendProcessor.

Import HygieneScoreEngine BackendProcessor.

(** ** Notions used to state the properties *)

(** The sum of score x weight over the components of a score dictionary, a
    component without a weight counting for nothing. *)
Fixpoint weighted_sum (weights : gmap string Q) (component_scores : list (string * Q)) : Q :=
  match component_scores with
  | [] => 0
  | (component, score) :: rest =>
      match weights !! component with
      | Some weight => score * weight
      | None => 0
      end + weighted_sum weights rest
  end.

(** Two score dictionaries with the same components in the same order, whose
    scores agree wherever the component carries a weight other than zero. *)
Definition agree_on_weighted (weights : gmap string Q) (cs1 cs2 : list (string * Q)) : Prop :=
  Forall2 (fun kv1 kv2 =>
             kv1.1 = kv2.1 /\
             (kv1.2 == kv2.2 \/ weights !! kv1.1 = None
              \/ exists weight, weights !! kv1.1 = Some weight /\ weight == 0))
          cs1 cs2.

(** Two score dictionaries with the same components and the same numbers. *)
Definition same_scores (cs1 cs2 : list (string * Q)) : Prop :=
  Forall2 (fun kv1 kv2 => kv1.1 = kv2.1 /\ kv1.2 == kv2.2) cs1 cs2.

(** The humidity and temperature curves of [calculate_component_scores]. *)
Definition humidity_score (humidity : Q) : Q :=
  if Qleb 40 humidity && Qleb humidity 60 then 100
  else if Qltb humidity 40 then Qmax 0 (humidity * 2.5)
  else Qmax 0 (100 - (humidity - 60) * 2).

Definition temperature_score (temperature : Q) : Q :=
  if Qleb 20 temperature && Qleb temperature 26 then 100
  else if Qltb temperature 20 then Qmax 0 (temperature * 5)
  else Qmax 0 (100 - (temperature - 26) * 5).

(** The [decay_amount] of [apply_time_decay] as a function of the hours since
    the cleaning: nothing within the first hour, where the method returns
    before it charges anything, [min(hours - 1, MAX_DECAY_HOURS) * DECAY_RATE]
    after it. *)
Definition decay_amount (hours_since_cleaning : Q) : Q :=
  if Qleb hours_since_cleaning 1 then 0
  else Qmin (hours_since_cleaning - 1) MAX_DECAY_HOURS * DECAY_RATE.

(** Everything of the world but the console. *)
Definition stores (w : world) :=
  (washroom_configs w, last_cleaning_times w, last_scores w,
   firestore_washroom_configs w, firestore_hygiene_logs w,
   realtime_current w, realtime_notifications w, calls w).

(** The configuration [get_washroom_config] finds for a washroom, its profile
    and its alert threshold. *)
Definition config_of (w : world) (washroom_id : string) : config :=
  (get_washroom_config washroom_id w).1.

Definition profile_of (w : world) (washroom_id : string) : string :=
  default "public" (cfg_profile (config_of w washroom_id)).

Definition threshold_of (w : world) (washroom_id : string) : Q :=
  default HYGIENE_THRESHOLD (cfg_threshold (config_of w washroom_id)).

(** The notifications pushed so far under [notifications/<id>]. *)
Definition notifications_at (w : world) (washroom_id : string) : list notification :=
  get (realtime_notifications w) washroom_id [].

(** The notification [send_cleaner_notification] pushes. *)
Definition alert (now : datetime) (washroom_id : string) (score : Q)
    (anomalies : list anomaly) : notification :=
  {| n_washroom_id := washroom_id;
     n_timestamp := now;
     n_type := "HYGIENE_ALERT";
     n_score := score;
     n_message := [Lit "Hygiene score dropped to "; Fmt score "";
                   Lit "%. Immediate cleaning required."];
     n_anomalies := anomalies |}.

(** The record [process_sensor_data] assembles for a payload of washroom
    [washroom_id] received in world [w]. *)
Definition result_of (now : datetime) (data : payload) (washroom_id : string) (w : world)
    : score_result :=
  let profile := profile_of w washroom_id in
  let component_scores := calculate_component_scores (fields data) in
  let base_score := calculate_weighted_score (__init__ washroom_id profile) component_scores in
  let final_score :=
    apply_time_decay now base_score (last_cleaning_times w !! washroom_id) in
  {| r_washroom_id := washroom_id;
     r_timestamp := now;
     r_sensor_data := data;
     r_component_scores := component_scores;
     r_base_score := base_score;
     r_final_score := final_score;
     r_decay_applied := base_score - final_score;
     r_anomalies := detect_anomalies (fields data) component_scores;
     r_profile := profile |}.

(** The reading of scenario 1. *)
Definition scenario1 : sensor_data :=
  {[ "air_quality" := 30; "floor_moisture" := 20; "humidity" := 50;
     "temperature" := 23; "footfall_count" := 10 ]}.

(** A world that has seen nothing yet. *)
Definition empty_world : world :=
  {| washroom_configs := ∅; last_cleaning_times := ∅; last_scores := ∅;
     firestore_washroom_configs := ∅; firestore_hygiene_logs := [];
     realtime_current := ∅; realtime_notifications := ∅;
     calls := []; console := [] |}.

(** A reading that breaks every rule of the anomaly detector. *)
Definition dirty_reading : sensor_data :=
  {[ "air_quality" := 90; "floor_moisture" := 80; "humidity" := 90;
     "temperature" := 40; "footfall_count" := 80 ]}.

(** A world in which [W1] was cleaned at instant 0. *)
Definition cleaned_world : world :=
  {| washroom_configs := ∅; last_cleaning_times := {[ "W1" := 0%Z ]}; last_scores := ∅;
     firestore_washroom_configs := ∅; firestore_hygiene_logs := [];
     realtime_current := ∅; realtime_notifications := ∅;
     calls := []; console := [] |}.

(** A world that has cached, for [W1], a threshold of 82.5. *)
Definition strict_world : world :=
  {| washroom_configs :=
       {[ "W1" := {| cfg_profile := Some "public"; cfg_threshold := Some 82.5;
                     cfg_name := Some "Washroom W1"; cfg_location := Some "Unknown" |} ]};
     last_cleaning_times := ∅; last_scores := ∅;
     firestore_washroom_configs := ∅; firestore_hygiene_logs := [];
     realtime_current := ∅; realtime_notifications := ∅;
     calls := []; console := [] |}.

(** A world whose stored configuration of [W1] names a profile without a
    weight table. *)
Definition misconfigured_world : world :=
  {| washroom_configs := ∅; last_cleaning_times := ∅; last_scores := ∅;
     firestore_washroom_configs :=
       {[ "W1" := {| cfg_profile := Some "school"; cfg_threshold := Some 50;
                     cfg_name := Some "Washroom W1"; cfg_location := Some "Unknown" |} ]};
     firestore_hygiene_logs := [];
     realtime_current := ∅; realtime_notifications := ∅;
     calls := []; console := [] |}.

Arguments print_report : simpl never.
Arguments store_in_firebase : simpl never.
Arguments check_alerts : simpl never.
Arguments get_washroom_config : simpl never.
Arguments calculate_component_scores : simpl never.
Arguments calculate_weighted_score : simpl never.
Arguments apply_time_decay : simpl never.
Arguments detect_anomalies : simpl never.
Arguments __init__ : simpl never.

(** ** class BackendProcessor: messages, heartbeats, dashboard and daily export *)

(** A calendar date is its day number, and a [datetime] counts the
    microseconds from the midnight that starts day 0, so that
    [datetime.combine(date, time)] is [date * DAY + time] and [now.date()]
    is the quotient of [now] by a day.  A formatted date is the formatted
    day number. *)
Abbreviation date := Z.

(** [timedelta(days=1)], and the two times of day the export uses:
    [datetime.min.time()] and [datetime.max.time()]. *)
Definition DAY : Z := 86400 * 1000000.
Definition min_time : Z := 0.
Definition max_time : Z := DAY - 1.

Definition date_of (t : datetime) : date := (t / DAY)%Z.

Definition combine (d : date) (time : Z) : datetime := (d * DAY + time)%Z.

Definition CSV_LOG_DIR : string := "hygiene_logs".

(** What [json.loads] makes of an MQTT message besides the payload the
    scoring path reads: its [type], when it has one, and the [wifi_connected]
    flag of a heartbeat.  [uptime_ms] and [free_heap] are numeric fields. *)
Record message := {
  type_of : option string;
  wifi_connected_of : option bool;
  data_of : payload
}.

(** The outcome of [json.loads(msg.payload.decode())]: the exception it
    raised, by its text, or the message. *)
Inductive decoded :=
| Undecodable (error : string)
| Decoded (m : message).

(** The value written under [washrooms/<id>/last_heartbeat]. *)
Record heartbeat := {
  h_timestamp : datetime;
  h_uptime_ms : option Q;
  h_free_heap : option Q;
  h_wifi_connected : option bool
}.

(** A row of a daily CSV file, under the [fieldnames] of the file. *)
Record csv_row := {
  row_timestamp : datetime;
  row_washroom_id : string;
  row_final_score : Q;
  row_base_score : Q;
  row_air_quality : option Q;
  row_floor_moisture : option Q;
  row_humidity : option Q;
  row_temperature : option Q;
  row_footfall_count : option Q;
  row_anomalies_count : nat;
  row_profile : string
}.

Record csv_file := {
  fieldnames : list string;
  rows : list csv_row
}.

(** The whole state of the backend: the world of the scoring path, the
    heartbeats of the realtime database by their path, and the CSV files of
    [CSV_LOG_DIR], [hygiene_log_<date>.csv] by its date. *)
Record backend := {
  world_of : world;
  last_heartbeats : gmap string heartbeat;
  csv_files : gmap date csv_file
}.

Definition on_world (f : world -> world) (b : backend) : backend :=
  {| world_of := f (world_of b);
     last_heartbeats := last_heartbeats b;
     csv_files := csv_files b |}.

(** [f'{washroom_id}'] for the value of [data.get('washroom_id')]. *)
Definition str_of (v : option string) : string :=
  match v with
  | None => "None"
  | Some s => s
  end.

(** The order [order_by('timestamp')] puts the documents in. *)
Definition by_timestamp (r1 r2 : score_result) : Prop :=
  (r_timestamp r1 <= r_timestamp r2)%Z.

#[global] Instance by_timestamp_dec r1 r2 : Decision (by_timestamp r1 r2).
Proof. unfold by_timestamp. apply _. Defined.

Module Backend.

Definition handle_heartbeat (now : datetime) (m : message) (b : backend) : backend :=
  let data := data_of m in
  let washroom_id := washroom_id_of data in
  let path := "washrooms/" ++ str_of washroom_id ++ "/last_heartbeat" in
  {| world_of := called (RealtimeSet path) (world_of b);
     last_heartbeats :=
       <[path := {| h_timestamp := now;
                    h_uptime_ms := fields data !! "uptime_ms";
                    h_free_heap := fields data !! "free_heap";
                    h_wifi_connected := wifi_connected_of m |}]> (last_heartbeats b);
     csv_files := csv_files b |}.

Definition on_mqtt_message (now : datetime) (msg : decoded) (b : backend) : backend :=
  match msg with
  | Undecodable e =>
      on_world (print [Lit "✗ Error processing message: "; Lit e]) b
  | Decoded payload =>
      match type_of payload with
      | Some type =>
          if String.eqb type "heartbeat" then handle_heartbeat now payload b
          else on_world (process_sensor_data now (data_of payload)) b
      | None => on_world (process_sensor_data now (data_of payload)) b
      end
  end.

(** The label of a score on the dashboard. *)
Definition status (score : Q) : string :=
  if Qleb 70 score then "🟢 GOOD"
  else if Qleb 50 score then "🟡 FAIR"
  else "🔴 POOR".

(** One round of [console_dashboard], after its sleep.  The lines of the
    washrooms come in the order of [map_to_list]; Python prints them in the
    order the washrooms were first cached. *)
Definition console_dashboard (w : world) : world :=
  if decide (last_scores w = ∅) then w
  else
    let w := print [Lit (newline ++ str_mul "=" 70)] w in
    let w := print [Lit "📊 LIVE HYGIENE DASHBOARD"] w in
    let w := print [Lit (str_mul "=" 70)] w in
    let w :=
      fold_left (fun w '(washroom_id, score) =>
                   print [Lit washroom_id; Lit ": "; Fmt score ""; Lit "% ";
                          Lit (status score)] w)
                (map_to_list (last_scores w)) w in
    print [Lit (str_mul "=" 70 ++ newline)] w.

(** The row [generate_csv_log] writes for a logged result. *)
Definition row_of (data : score_result) : csv_row :=
  {| row_timestamp := r_timestamp data;
     row_washroom_id := r_washroom_id data;
     row_final_score := r_final_score data;
     row_base_score := r_base_score data;
     row_air_quality := getitem (r_component_scores data) "air_quality";
     row_floor_moisture := getitem (r_component_scores data) "floor_moisture";
     row_humidity := getitem (r_component_scores data) "humidity";
     row_temperature := getitem (r_component_scores data) "temperature";
     row_footfall_count := fields (r_sensor_data data) !! "footfall_count";
     row_anomalies_count := length (r_anomalies data);
     row_profile := r_profile data |}.

Definition generate_csv_log (d : date) (b : backend) : backend :=
  let b := on_world (print [Lit "📝 Generating CSV log for "; Fmt (inject_Z d) ""]) b in
  let start := combine d min_time in
  let end_ := combine d max_time in
  let logs :=
    merge_sort by_timestamp
      (filter (fun log => (start <= r_timestamp log)%Z /\ (r_timestamp log <= end_)%Z)
              (firestore_hygiene_logs (world_of b))) in
  let filename := [Lit CSV_LOG_DIR; Lit "/hygiene_log_"; Fmt (inject_Z d) ""; Lit ".csv"] in
  let fieldnames :=
    ["timestamp"; "washroom_id"; "final_score"; "base_score";
     "air_quality"; "floor_moisture"; "humidity"; "temperature";
     "footfall_count"; "anomalies_count"; "profile"] in
  let '(rows, count) :=
    fold_left (fun '(rows, count) log => (append rows (row_of log), S count))
              logs ([], O) in
  let b :=
    {| world_of := world_of b;
       last_heartbeats := last_heartbeats b;
       csv_files := <[d := {| fieldnames := fieldnames; rows := rows |}]> (csv_files b) |} in
  on_world (print ([Lit "✓ CSV log generated: "] ++ filename
                     ++ [Lit " ("; Fmt (inject_Z (Z.of_nat count)) ""; Lit " records)"])%list) b.

(** [daily_csv_logger], one round of its loop at clock reading [now]: the
    seconds it sleeps, up to the next midnight, and what it does when it
    wakes up. *)
Definition sleep_seconds (now : datetime) : Q :=
  let tomorrow := (now + DAY)%Z in
  let midnight := combine (date_of tomorrow) min_time in
  total_seconds (midnight - now).

Definition daily_csv_logger_announce (now : datetime) (b : backend) : backend :=
  on_world (print [Lit "📅 Next CSV log generation in ";
                   Fmt (sleep_seconds now / 3600) ".1f"; Lit " hours"]) b.

Definition daily_csv_logger_wake (now : datetime) (b : backend) : backend :=
  let yesterday := (date_of now - 1)%Z in
  generate_csv_log yesterday b.

(** [mqtt_client.loop_forever()], as [run] starts it: the loop hands the
    messages it receives to [on_mqtt_message] one after the other, each with
    the clock reading of its processing. *)
Definition loop_forever (messages : list (datetime * decoded)) (b : backend) : backend :=
  fold_left (fun b '(now, msg) => on_mqtt_message now msg b) messages b.

End Backend.

Import Backend.

(** ** Further notions used to state the properties *)

(** The five fields the engine reads, each with the default it scores a
    reading without the field by. *)
Definition scoring_defaults : list (string * Q) :=
  [("air_quality", 50); ("floor_moisture", 30); ("humidity", 50);
   ("temperature", 23); ("footfall_count", 0)].

(** The calls a configuration lookup makes: none on a cache hit, a read on a
    miss, and a write after the read when there is no document. *)
Definition config_calls (w : world) (wid : string) : list call :=
  match washroom_configs w !! wid with
  | Some _ => []
  | None =>
      FirestoreGet "washroom_configs" wid ::
      match firestore_washroom_configs w !! wid with
      | Some _ => []
      | None => [FirestoreSet "washroom_configs" wid]
      end
  end.

(** The value [store_in_firebase] writes under [washrooms/<id>/current]. *)
Definition current_of (result : score_result) : current_state :=
  {| c_score := r_final_score result;
     c_timestamp := r_timestamp result;
     c_component_scores := r_component_scores result;
     c_anomalies := r_anomalies result |}.

(** The calls of one scored reading after the configuration lookup. *)
Definition scoring_calls (wid : string) (alerts : bool) : list call :=
  [FirestoreAdd "hygiene_logs"; RealtimeSet ("washrooms/" ++ wid ++ "/current")]
  ++ (if alerts then [RealtimePush ("notifications/" ++ wid)] else []).

(** The washroom and the payload of a message that is scored: a decoded
    message that is no heartbeat and names its washroom. *)
Definition reading_of (msg : decoded) : option (string * payload) :=
  match msg with
  | Undecodable _ => None
  | Decoded m =>
      if default false (String.eqb "heartbeat" <$> type_of m) then None
      else
        match washroom_id_of (data_of m) with
        | Some wid => if String.eqb wid "" then None else Some (wid, data_of m)
        | None => None
        end
  end.

(** What a message that is not scored may change: the calls, by the one
    write of a heartbeat, and the console. *)
Definition quiet (w w' : world) : Prop :=
  washroom_configs w' = washroom_configs w
  /\ last_cleaning_times w' = last_cleaning_times w
  /\ last_scores w' = last_scores w
  /\ firestore_washroom_configs w' = firestore_washroom_configs w
  /\ firestore_hygiene_logs w' = firestore_hygiene_logs w
  /\ realtime_current w' = realtime_current w
  /\ realtime_notifications w' = realtime_notifications w
  /\ (exists new, calls w' = (calls w ++ new)%list
                  /\ Forall (fun c => exists path, c = RealtimeSet path) new)
  /\ console w `prefix_of` console w'.

(** Nothing written is taken back: the log, the notifications of every
    washroom, the calls and the console only grow. *)
Definition grows (w w' : world) : Prop :=
  firestore_hygiene_logs w `prefix_of` firestore_hygiene_logs w'
  /\ (forall wid, notifications_at w wid `prefix_of` notifications_at w' wid)
  /\ calls w `prefix_of` calls w'
  /\ console w `prefix_of` console w'.

#[global] Instance call_eq_dec : EqDecision call.
Proof. solve_decision. Defined.

(** How often a call occurs in a list of calls. *)
Definition occurrences (c : call) (l : list call) : nat :=
  length (filter (fun c' => c' = c) l).

(** The calls on the configuration of washroom [wid]. *)
Definition config_call (wid : string) (c : call) : Prop :=
  c = FirestoreGet "washroom_configs" wid \/ c = FirestoreSet "washroom_configs" wid.

(** The line of a washroom on the dashboard. *)
Definition dashboard_line (washroom_id : string) (score : Q) : fstring :=
  [Lit washroom_id; Lit ": "; Fmt score ""; Lit "% "; Lit (status score)].

(** The header of a daily file. *)
Definition csv_header : list string :=
  ["timestamp"; "washroom_id"; "final_score"; "base_score";
   "air_quality"; "floor_moisture"; "humidity"; "temperature";
   "footfall_count"; "anomalies_count"; "profile"].

(** The logged results of a date, as Firestore holds them. *)
Definition logs_of (d : date) (w : world) : list score_result :=
  filter (fun r => date_of (r_timestamp r) = d) (firestore_hygiene_logs w).

(** The message of a sensor node: a reading of washroom [wid], without a
    [type]. *)
Definition reading_message (wid : string) (data : sensor_data) : decoded :=
  Decoded {| type_of := None; wifi_connected_of := None;
             data_of := {| washroom_id_of := Some wid; fields := data |} |}.

(** The path and the value a message is stored under as a heartbeat, when it
    is one. *)
Definition heartbeat_of (now : datetime) (msg : decoded) : option (string * heartbeat) :=
  match msg with
  | Undecodable _ => None
  | Decoded m =>
      if default false (String.eqb "heartbeat" <$> type_of m) then
        Some ("washrooms/" ++ str_of (washroom_id_of (data_of m)) ++ "/last_heartbeat",
              {| h_timestamp := now;
                 h_uptime_ms := fields (data_of m) !! "uptime_ms";
                 h_free_heap := fields (data_of m) !! "free_heap";
                 h_wifi_connected := wifi_connected_of m |})
      else None
  end.

(** A backend that has seen nothing yet. *)
Definition empty_backend : backend :=
  {| world_of := empty_world; last_heartbeats := ∅; csv_files := ∅ |}.

(** * Properties *)

(** ** Comparisons and rounding *)

Lemma Qltb_lt a b : Qltb a b = true <-> a < b.
Proof.
  unfold Qltb.
  destruct (Qcompare_spec a b); split; intros; try discriminate; try reflexivity; lra.
Qed.

Lemma Qltb_ge a b : Qltb a b = false <-> b <= a.
Proof.
  unfold Qltb.
  destruct (Qcompare_spec a b); split; intros; try discriminate; try reflexivity; lra.
Qed.

Lemma Qleb_le a b : Qleb a b = true <-> a <= b.
Proof.
  unfold Qleb.
  destruct (Qcompare_spec a b); split; intros; try discriminate; try reflexivity; lra.
Qed.

Lemma Qleb_gt a b : Qleb a b = false <-> b < a.
Proof.
  unfold Qleb.
  destruct (Qcompare_spec a b); split; intros; try discriminate; try reflexivity; lra.
Qed.

(** Turn the tests of the goal into inequalities, one case each. *)
Ltac Qreflect :=
  repeat match goal with
  | H : Qltb _ _ = true |- _ => apply Qltb_lt in H
  | H : Qltb _ _ = false |- _ => apply Qltb_ge in H
  | H : Qleb _ _ = true |- _ => apply Qleb_le in H
  | H : Qleb _ _ = false |- _ => apply Qleb_gt in H
  end.

Ltac Qbools :=
  repeat match goal with
  | |- context [Qleb ?a ?b] => destruct (Qleb a b) eqn:?; Qreflect; simpl
  | |- context [Qltb ?a ?b] => destruct (Qltb a b) eqn:?; Qreflect; simpl
  end.

(** Name every [Qmax] and [Qmin] and keep what is known of it. *)
Ltac Qminmax :=
  repeat match goal with
  | |- context [Qmax ?a ?b] =>
      let m := fresh "m" in
      pose proof (Q.max_spec a b); set (m := Qmax a b) in *; clearbody m
  | |- context [Qmin ?a ?b] =>
      let m := fresh "m" in
      pose proof (Q.min_spec a b); set (m := Qmin a b) in *; clearbody m
  | H : context [Qmax ?a ?b] |- _ =>
      let m := fresh "m" in
      pose proof (Q.max_spec a b); set (m := Qmax a b) in *; clearbody m
  | H : context [Qmin ?a ?b] |- _ =>
      let m := fresh "m" in
      pose proof (Q.min_spec a b); set (m := Qmin a b) in *; clearbody m
  end.

Ltac Qcases := Qbools; Qminmax.

#[global] Instance round_half_even_Proper : Proper (Qeq ==> eq) round_half_even.
Proof.
  intros x y E. unfold round_half_even.
  rewrite (Qfloor_comp _ _ E).
  assert (Hc : (x - inject_Z (Qfloor y) ?= 1 # 2) = (y - inject_Z (Qfloor y) ?= 1 # 2))
    by (apply Qcompare_comp; [rewrite E|]; reflexivity).
  now rewrite Hc.
Qed.

Lemma round_half_even_bounds x :
  (Qfloor x <= round_half_even x <= Qfloor x + 1)%Z.
Proof.
  unfold round_half_even.
  destruct (_ ?= _); [destruct (Z.even _)| |]; lia.
Qed.

Lemma round_half_even_Z k : round_half_even (inject_Z k) = k.
Proof.
  unfold round_half_even. rewrite Qfloor_Z.
  destruct (Qcompare_spec (inject_Z k - inject_Z k) (1 # 2)) as [E|L|G];
    [lra|reflexivity|lra].
Qed.

Lemma round_half_even_mono x y : x <= y -> (round_half_even x <= round_half_even y)%Z.
Proof.
  intros Hxy.
  pose proof (Qfloor_resp_le _ _ Hxy) as Hf.
  destruct (Z.eq_dec (Qfloor x) (Qfloor y)) as [E|N].
  - unfold round_half_even. rewrite E.
    destruct (Qcompare_spec (x - inject_Z (Qfloor y)) (1 # 2));
      destruct (Qcompare_spec (y - inject_Z (Qfloor y)) (1 # 2));
      try destruct (Z.even (Qfloor y)); try lia; lra.
  - pose proof (round_half_even_bounds x). pose proof (round_half_even_bounds y). lia.
Qed.

Lemma scale_pos n : 0 < inject_Z (10 ^ Z.of_nat n).
Proof.
  change 0 with (inject_Z 0). rewrite <- Zlt_Qlt.
  apply Z.pow_pos_nonneg; lia.
Qed.

Lemma round_ext x y n : x == y -> round x n = round y n.
Proof. intros E. unfold round. now rewrite E. Qed.

#[global] Instance round_Proper : Proper (Qeq ==> eq ==> Qeq) round.
Proof. intros x y E n ? <-. now rewrite (round_ext x y n E). Qed.

Lemma round_mono x y n : x <= y -> round x n <= round y n.
Proof.
  intros Hxy. unfold round.
  pose proof (scale_pos n) as Hs.
  apply Qmult_le_compat_r.
  - rewrite <- Zle_Qle. apply round_half_even_mono.
    apply Qmult_le_compat_r; lra.
  - apply Qlt_le_weak, Qinv_lt_0_compat, Hs.
Qed.

Lemma round_fix k n :
  round (inject_Z k / inject_Z (10 ^ Z.of_nat n)) n
  == inject_Z k / inject_Z (10 ^ Z.of_nat n).
Proof.
  unfold round. pose proof (scale_pos n) as Hs.
  assert (E : inject_Z k / inject_Z (10 ^ Z.of_nat n) * inject_Z (10 ^ Z.of_nat n)
              == inject_Z k)
    by (field; lra).
  now rewrite E, round_half_even_Z.
Qed.

Lemma round_idem x n : round (round x n) n == round x n.
Proof. unfold round at 2 3. apply round_fix. Qed.

Lemma round_0 n : round 0 n == 0.
Proof.
  unfold round. rewrite Qmult_0_l. change 0 with (inject_Z 0) at 1.
  rewrite round_half_even_Z. pose proof (scale_pos n). field. lra.
Qed.

Lemma round_nonneg x n : 0 <= x -> 0 <= round x n.
Proof. intros H. rewrite <- (round_0 n). now apply round_mono. Qed.

(** [round] is off by at most half a unit of the last digit kept. *)
Lemma round_error x :
  - (1 # 200) <= round x 2 - x <= 1 # 200.
Proof.
  unfold round. set (y := x * inject_Z (10 ^ Z.of_nat 2)).
  assert (Hy : x == y / 100)
    by (unfold y; change (inject_Z (10 ^ Z.of_nat 2)) with 100; field).
  clearbody y. change (inject_Z (10 ^ Z.of_nat 2)) with 100.
  pose proof (Qfloor_le y) as Hl. pose proof (Qlt_floor y) as Hu.
  rewrite inject_Z_plus in Hu. change (inject_Z 1) with 1 in Hu.
  assert (Hr : - (1 # 2) <= inject_Z (round_half_even y) - y <= 1 # 2).
  { unfold round_half_even.
    destruct (Qcompare_spec (y - inject_Z (Qfloor y)) (1 # 2));
      [destruct (Z.even (Qfloor y))| |];
      rewrite ?inject_Z_plus; change (inject_Z 1) with 1; lra. }
  rewrite Hy.
  set (r := inject_Z (round_half_even y)) in *. clearbody r.
  assert (E : r / 100 - y / 100 == (r - y) / 100) by field.
  rewrite E. split.
  - apply Qle_shift_div_l; lra.
  - apply Qle_shift_div_r; lra.
Qed.

(** ** The score engine *)

Lemma calculate_component_scores_items data :
  calculate_component_scores data =
  [ ("air_quality", Qmax 0 (100 - get data "air_quality" 50));
    ("floor_moisture", Qmax 0 (100 - get data "floor_moisture" 30));
    ("humidity", humidity_score (get data "humidity" 50));
    ("temperature", temperature_score (get data "temperature" 23));
    ("footfall_density", Qmax 0 (100 - (get data "footfall_count" 0 / 100) * 100)) ].
Proof.
  unfold calculate_component_scores, humidity_score, temperature_score.
  set (humidity := get data "humidity" 50). set (temperature := get data "temperature" 23).
  destruct (Qleb 40 humidity && Qleb humidity 60), (Qltb humidity 40),
    (Qleb 20 temperature && Qleb temperature 26), (Qltb temperature 20);
    reflexivity.
Qed.

Lemma humidity_score_range h : 0 <= humidity_score h <= 100.
Proof. unfold humidity_score. Qcases; lra. Qed.

Lemma temperature_score_range t : 0 <= temperature_score t <= 100.
Proof. unfold temperature_score. Qcases; lra. Qed.

Lemma inverted_score_range raw : 0 <= raw -> 0 <= Qmax 0 (100 - raw) <= 100.
Proof. intros. Qcases; lra. Qed.

Lemma inverted_score_saturates raw : 100 < raw -> Qmax 0 (100 - raw) == 0.
Proof. intros. Qcases; lra. Qed.

Lemma inverted_score_negative raw : raw < 0 -> Qmax 0 (100 - raw) == 100 - raw.
Proof. intros. Qcases; lra. Qed.

Lemma footfall_normalised n : n / 100 * 100 == n.
Proof. field. Qed.

Lemma footfall_score_range n : 0 <= n -> 0 <= Qmax 0 (100 - n / 100 * 100) <= 100.
Proof. intros. rewrite footfall_normalised. now apply inverted_score_range. Qed.

(** No component score is negative, whatever the reading. *)
Lemma component_scores_nonneg data :
  Forall (fun kv => 0 <= kv.2) (calculate_component_scores data).
Proof.
  rewrite calculate_component_scores_items.
  repeat (apply Forall_cons_2; [cbn [snd]|]); [..|apply Forall_nil_2].
  - apply Q.le_max_l.
  - apply Q.le_max_l.
  - apply humidity_score_range.
  - apply temperature_score_range.
  - apply Q.le_max_l.
Qed.

(** On a reading whose air quality, floor moisture and footfall are not
    negative, every component score lies in [0,100]. *)
Lemma component_scores_in_range data :
  0 <= get data "air_quality" 50 ->
  0 <= get data "floor_moisture" 30 ->
  0 <= get data "footfall_count" 0 ->
  Forall (fun kv => 0 <= kv.2 <= 100) (calculate_component_scores data).
Proof.
  intros Ha Hm Hf. rewrite calculate_component_scores_items.
  repeat (apply Forall_cons_2; [cbn [snd]|]); [..|apply Forall_nil_2].
  - now apply inverted_score_range.
  - now apply inverted_score_range.
  - apply humidity_score_range.
  - apply temperature_score_range.
  - now apply footfall_score_range.
Qed.

Lemma weight_tables_nonneg :
  map_Forall (fun _ table => map_Forall (fun _ (weight : Q) => 0 <= weight) table)
    WEIGHT_PROFILES.
Proof.
  unfold WEIGHT_PROFILES.
  repeat (first [apply map_Forall_insert_2 | apply map_Forall_singleton]; try easy).
Qed.

Lemma public_table :
  WEIGHT_PROFILES !! "public" =
  Some ({[ "air_quality" := 0.35; "floor_moisture" := 0.30; "humidity" := 0.15;
           "temperature" := 0.10; "footfall_density" := 0.10 ]} : gmap string Q).
Proof. reflexivity. Qed.

Lemma unknown_profile_table profile :
  profile ∉ ["office"; "public"; "hospital"; "restaurant"] ->
  WEIGHT_PROFILES !! profile = None.
Proof.
  intros H. rewrite !not_elem_of_cons in H. destruct H as (H1 & H2 & H3 & H4 & _).
  unfold WEIGHT_PROFILES.
  rewrite !lookup_insert_ne by congruence. apply lookup_singleton_ne. congruence.
Qed.

Lemma init_weights_nonneg wid profile component :
  0 <= get (weights (__init__ wid profile)) component 0.
Proof.
  assert (Hw : exists table, weights (__init__ wid profile) = table
                             /\ map_Forall (fun _ (weight : Q) => 0 <= weight) table).
  { unfold __init__. cbn [weights].
    destruct (WEIGHT_PROFILES !! profile) as [table|] eqn:E.
    - exists table. split; [reflexivity|]. exact (weight_tables_nonneg _ _ E).
    - eexists. split; [reflexivity|].
      unfold lookup_total, map_lookup_total. rewrite public_table.
      exact (weight_tables_nonneg _ _ public_table). }
  destruct Hw as (table & -> & Hall). unfold get.
  destruct (table !! component) as [q|] eqn:E; [exact (Hall _ _ E) | lra].
Qed.

Lemma total_score_sum weights cs start :
  fold_left (fun total_score '(component, score) =>
               let weight := get weights component 0 in
               total_score + score * weight) cs start
  == start + weighted_sum weights cs.
Proof.
  revert start. induction cs as [|[c s] cs IH]; intros start; simpl.
  - lra.
  - rewrite IH. unfold get. destruct (weights !! c); lra.
Qed.

Lemma calculate_weighted_score_sum self cs :
  calculate_weighted_score self cs = round (weighted_sum (weights self) cs) 2.
Proof.
  unfold calculate_weighted_score. apply round_ext.
  rewrite (total_score_sum (weights self) cs 0). lra.
Qed.

Lemma weighted_sum_agree weights cs1 cs2 :
  agree_on_weighted weights cs1 cs2 -> weighted_sum weights cs1 == weighted_sum weights cs2.
Proof.
  induction 1 as [|[c1 s1] [c2 s2] cs1 cs2 [Hk Hv] _ IH]; simpl in *.
  - reflexivity.
  - subst c2. rewrite IH.
    destruct Hv as [E|[E|(weight & E & Z)]].
    + destruct (weights !! c1); [rewrite E|]; reflexivity.
    + rewrite E. reflexivity.
    + rewrite E, Z. lra.
Qed.

Lemma weighted_sum_nonneg weights cs :
  (forall c, 0 <= get weights c 0) -> Forall (fun kv => 0 <= kv.2) cs ->
  0 <= weighted_sum weights cs.
Proof.
  intros Hw. induction 1 as [|[c s] cs Hs _ IH]; simpl in *; [lra|].
  specialize (Hw c). unfold get in Hw.
  destruct (weights !! c) as [q|]; [|lra].
  assert (0 <= s * q) by (apply Qmult_le_0_compat; assumption). lra.
Qed.

Lemma base_score_nonneg wid profile data :
  0 <= calculate_weighted_score (__init__ wid profile) (calculate_component_scores data).
Proof.
  rewrite calculate_weighted_score_sum. apply round_nonneg.
  apply weighted_sum_nonneg; [apply init_weights_nonneg | apply component_scores_nonneg].
Qed.

Lemma decay_amount_bounds h : 1 < h -> 0 < decay_amount h <= 4.
Proof.
  intros Hh. unfold decay_amount, MAX_DECAY_HOURS, DECAY_RATE.
  Qcases; lra.
Qed.

Lemma apply_time_decay_charged now base t :
  apply_time_decay now base (Some t) =
  if Qleb (hours_since now t) 1 then base
  else round (Qmax 0 (base - decay_amount (hours_since now t))) 2.
Proof.
  unfold apply_time_decay, decay_amount.
  destruct (Qleb (hours_since now t) 1); reflexivity.
Qed.

Lemma apply_time_decay_grace now base t :
  hours_since now t <= 1 -> apply_time_decay now base (Some t) = base.
Proof. intros H. unfold apply_time_decay. apply Qleb_le in H. now rewrite H. Qed.

Lemma apply_time_decay_after now base t :
  1 < hours_since now t ->
  apply_time_decay now base (Some t) =
  round (Qmax 0 (base - Qmin (hours_since now t - 1) 8 * 0.5)) 2.
Proof. intros H. unfold apply_time_decay. apply Qleb_gt in H. now rewrite H. Qed.

(** A base score that is not negative and has two decimals decays to a score
    between 0 and itself. *)
Lemma apply_time_decay_range now base last :
  0 <= base -> round base 2 == base ->
  0 <= apply_time_decay now base last <= base.
Proof.
  intros H0 Hr.
  destruct last as [t|]; [|unfold apply_time_decay; lra].
  rewrite apply_time_decay_charged.
  destruct (Qleb (hours_since now t) 1) eqn:E; [lra|].
  apply Qleb_gt in E. pose proof (decay_amount_bounds _ E) as [Hd _].
  split.
  - apply round_nonneg, Q.le_max_l.
  - rewrite <- Hr at 2. apply round_mono.
    apply Q.max_lub; lra.
Qed.

Lemma scenario1_scores :
  same_scores (calculate_component_scores scenario1)
    [("air_quality", 70); ("floor_moisture", 80); ("humidity", 100);
     ("temperature", 100); ("footfall_density", 90)].
Proof. vm_compute. repeat constructor. Qed.

Lemma scenario1_base wid :
  calculate_weighted_score (__init__ wid "public") (calculate_component_scores scenario1)
  == 82.5.
Proof. vm_compute. reflexivity. Qed.

(** ** The processor *)

Lemma stores_fields w w' :
  stores w' = stores w ->
  washroom_configs w' = washroom_configs w
  /\ last_cleaning_times w' = last_cleaning_times w
  /\ last_scores w' = last_scores w
  /\ firestore_washroom_configs w' = firestore_washroom_configs w
  /\ firestore_hygiene_logs w' = firestore_hygiene_logs w
  /\ realtime_current w' = realtime_current w
  /\ realtime_notifications w' = realtime_notifications w
  /\ calls w' = calls w.
Proof. unfold stores. intros H. injection H as -> -> -> -> -> -> -> ->. easy. Qed.

Lemma print_stores line w : stores (print line w) = stores w.
Proof. reflexivity. Qed.

Lemma print_anomalies_stores (anomalies : list anomaly) w :
  stores (fold_left (fun w anomaly =>
                       print ([Lit "   - "; Lit (a_type anomaly); Lit ": "]
                                ++ a_message anomaly)%list w) anomalies w)
  = stores w.
Proof.
  revert w. induction anomalies as [|a l IH]; intros w; simpl; [reflexivity|].
  now rewrite IH.
Qed.

Lemma print_report_stores wid profile final base cs anomalies w :
  stores (print_report wid profile final base cs anomalies w) = stores w.
Proof.
  unfold print_report. rewrite print_stores.
  destruct anomalies as [|a l]; [reflexivity|].
  now rewrite print_anomalies_stores.
Qed.

(** Looking a configuration up touches the two configuration stores only. *)
Lemma get_washroom_config_frame wid w :
  let w' := (get_washroom_config wid w).2 in
  last_cleaning_times w' = last_cleaning_times w /\ last_scores w' = last_scores w
  /\ firestore_hygiene_logs w' = firestore_hygiene_logs w
  /\ realtime_current w' = realtime_current w
  /\ realtime_notifications w' = realtime_notifications w
  /\ console w' = console w.
Proof.
  unfold get_washroom_config.
  destruct (washroom_configs w !! wid); [easy|].
  cbn [called firestore_washroom_configs].
  destruct (firestore_washroom_configs w !! wid); easy.
Qed.

Lemma get_washroom_config_cached wid w :
  washroom_configs (get_washroom_config wid w).2 !! wid = Some (get_washroom_config wid w).1.
Proof.
  unfold get_washroom_config.
  destruct (washroom_configs w !! wid) eqn:E; [exact E|].
  cbn [called firestore_washroom_configs].
  destruct (firestore_washroom_configs w !! wid); simpl; apply lookup_insert_eq.
Qed.

Lemma get_washroom_config_hit wid w c :
  washroom_configs w !! wid = Some c -> get_washroom_config wid w = (c, w).
Proof. intros E. unfold get_washroom_config. now rewrite E. Qed.

Lemma truth_Some wid : wid <> "" -> truth (Some wid) = true.
Proof.
  intros N. simpl. destruct (String.eqb_spec wid ""); [contradiction|reflexivity].
Qed.

Lemma check_alerts_notifications now result w :
  let wid := r_washroom_id result in
  realtime_notifications (check_alerts now result w) =
  if Qltb (r_final_score result) (threshold_of w wid)
  then <[wid := (notifications_at w wid
                 ++ [alert now wid (r_final_score result) (r_anomalies result)])%list]>
         (realtime_notifications w)
  else realtime_notifications w.
Proof.
  intros wid. unfold check_alerts, threshold_of, config_of, notifications_at. fold wid.
  pose proof (get_washroom_config_frame wid w) as (_ & _ & _ & _ & Hn & _).
  destruct (get_washroom_config wid w) as [config w1]. simpl in *.
  destruct (Qltb _ _); [|exact Hn].
  simpl. now rewrite Hn.
Qed.

Lemma check_alerts_frame now result w :
  let w' := check_alerts now result w in
  last_cleaning_times w' = last_cleaning_times w /\ last_scores w' = last_scores w
  /\ firestore_hygiene_logs w' = firestore_hygiene_logs w
  /\ realtime_current w' = realtime_current w.
Proof.
  unfold check_alerts.
  pose proof (get_washroom_config_frame (r_washroom_id result) w) as (H1 & H2 & H3 & H4 & _).
  destruct (get_washroom_config _ w) as [config w1]. simpl in *.
  destruct (Qltb _ _); simpl; easy.
Qed.

Lemma insert_at_changes (tree : gmap string (list notification)) wid n :
  <[wid := (get tree wid [] ++ [n])%list]> tree <> tree.
Proof.
  intros H. apply (f_equal (fun t => length (get t wid []))) in H.
  unfold get in H at 1. rewrite lookup_insert_eq in H.
  rewrite length_app in H. simpl in H. lia.
Qed.

(** What a payload that names its washroom leaves behind: the assembled
    record appended to the log, the final score cached, the cleaning times
    untouched and a notification pushed when the score is under the threshold. *)
Lemma process_sensor_data_scored now data w wid :
  washroom_id_of data = Some wid -> wid <> "" ->
  let w' := process_sensor_data now data w in
  let result := result_of now data wid w in
  firestore_hygiene_logs w' = (firestore_hygiene_logs w ++ [result])%list
  /\ last_scores w' = <[wid := r_final_score result]> (last_scores w)
  /\ last_cleaning_times w' = last_cleaning_times w
  /\ realtime_notifications w' =
     if Qltb (r_final_score result) (threshold_of w wid)
     then <[wid := (notifications_at w wid ++
                    [alert now wid (r_final_score result) (r_anomalies result)])%list]>
            (realtime_notifications w)
     else realtime_notifications w.
Proof.
  intros Hid Hne w' result. subst w'.
  unfold process_sensor_data.
  rewrite Hid, (truth_Some wid Hne). cbv [negb from_option id].
  assert (Hres : result = result_of now data wid w) by reflexivity.
  unfold result_of, profile_of, threshold_of, config_of in *.
  cbv [from_option id] in Hres.
  pose proof (get_washroom_config_frame wid w) as (Hc & Hs & Hl & Hr & Hn & _).
  pose proof (get_washroom_config_cached wid w) as Hcache.
  destruct (get_washroom_config wid w) as [config w1]. cbv [fst snd] in *.
  rewrite Hc. rewrite <- Hres.
  match goal with |- context [print_report ?a ?b ?c ?d ?e ?f ?g] =>
    destruct (stores_fields _ _ (print_report_stores a b c d e f g))
      as (_ & Hp2 & Hp3 & _ & Hp5 & _ & Hp7 & _)
  end.
  rewrite Hp5, Hp3, Hp2, Hp7.
  destruct (check_alerts_frame now result (store_in_firebase result w1)) as (F1 & F2 & F3 & F4).
  pose proof (check_alerts_notifications now result (store_in_firebase result w1)) as Hk.
  cbv zeta in Hk.
  unfold threshold_of, config_of, notifications_at in Hk.
  assert (Hrid : r_washroom_id result = wid) by (rewrite Hres; reflexivity).
  rewrite Hrid in Hk.
  rewrite (get_washroom_config_hit wid (store_in_firebase result w1) config) in Hk
    by exact Hcache.
  cbv [fst] in Hk.
  change (last_scores (set_last_scores ?f ?w)) with (f (last_scores w)).
  change (firestore_hygiene_logs (set_last_scores ?f ?w)) with (firestore_hygiene_logs w).
  change (last_cleaning_times (set_last_scores ?f ?w)) with (last_cleaning_times w).
  change (realtime_notifications (set_last_scores ?f ?w)) with (realtime_notifications w).
  rewrite F1, F2, F3, Hk.
  change (firestore_hygiene_logs (store_in_firebase result w1))
    with (append (firestore_hygiene_logs w1) result).
  change (last_scores (store_in_firebase result w1)) with (last_scores w1).
  change (last_cleaning_times (store_in_firebase result w1)) with (last_cleaning_times w1).
  change (realtime_notifications (store_in_firebase result w1)) with (realtime_notifications w1).
  rewrite Hs, Hc, Hl, Hn. unfold append, notifications_at.
  repeat split; reflexivity.
Qed.

(** An empty [washroom_id] is as good as none. *)
Lemma empty_washroom_id_dropped now data w :
  washroom_id_of data = Some "" ->
  process_sensor_data now data w = print [Lit "✗ Missing washroom_id in data"] w.
Proof. intros H. unfold process_sensor_data. now rewrite H. Qed.

(** ** The processor at work *)

(** Scenario 2: a raw air quality of 85 scores 15 and raises ODOR_SPIKE. *)
Example scenario2_odor_spike :
  let data : sensor_data := {[ "air_quality" := 85 ]} in
  getitem (calculate_component_scores data) "air_quality" = Some 15
  /\ map a_type (detect_anomalies data (calculate_component_scores data)) = ["ODOR_SPIKE"].
Proof. split; reflexivity. Qed.

(** A first dirty reading of an unknown washroom: its configuration is read,
    created and cached, the result is logged with the four anomalies in rule
    order and a base score of 20.5, and one notification is pushed. *)
Example dirty_reading_alerts :
  let w' := process_sensor_data 0 {| washroom_id_of := Some "W1"; fields := dirty_reading |}
              empty_world in
  map (fun r => map a_type (r_anomalies r)) (firestore_hygiene_logs w')
  = [["ODOR_SPIKE"; "MOISTURE_ALERT"; "TEMPERATURE_ANOMALY"; "HIGH_USAGE"]]
  /\ Forall2 Qeq (map r_base_score (firestore_hygiene_logs w')) [20.5]
  /\ Forall2 Qeq (map n_score (notifications_at w' "W1")) [20.5]
  /\ calls w' = [FirestoreGet "washroom_configs" "W1"; FirestoreSet "washroom_configs" "W1";
                 FirestoreAdd "hygiene_logs"; RealtimeSet "washrooms/W1/current";
                 RealtimePush "notifications/W1"]
  /\ cfg_profile <$> washroom_configs w' !! "W1" = Some (Some "public").
Proof.
  vm_compute. repeat split; repeat constructor.
Qed.

(** * The claims *)

(** C1, at the input where the code leaves the documented range: for the
    reading [{air_quality: -5}] the air quality score is 105, which is not in
    [0,100]; a negative raw value is not clamped to 100. *)
Theorem negative_air_quality_scores_above_100 :
  exists score,
    getitem (calculate_component_scores {[ "air_quality" := -5 ]}) "air_quality" = Some score
    /\ score == 105 /\ ~ score <= 100.
Proof.
  exists 105. split; [reflexivity|]. split; [reflexivity|].
  intros H. lra.
Qed.

(** C2: the reading of scenario 1, from a washroom whose profile is [public]
    and whose threshold is 50, with no cleaning on record, is logged with the
    component scores 70, 80, 100, 100 and 90, base score 82.5, final score
    82.5 and no anomaly, and no notification is pushed. *)
Theorem scenario1_pipeline now wid w :
  wid <> "" ->
  profile_of w wid = "public" ->
  threshold_of w wid == 50 ->
  last_cleaning_times w !! wid = None ->
  let data := {| washroom_id_of := Some wid; fields := scenario1 |} in
  let w' := process_sensor_data now data w in
  exists result,
    firestore_hygiene_logs w' = (firestore_hygiene_logs w ++ [result])%list
    /\ same_scores (r_component_scores result)
         [("air_quality", 70); ("floor_moisture", 80); ("humidity", 100);
          ("temperature", 100); ("footfall_density", 90)]
    /\ r_base_score result == 82.5
    /\ r_final_score result == 82.5
    /\ r_anomalies result = []
    /\ realtime_notifications w' = realtime_notifications w.
Proof.
  intros Hne Hp Ht Hc data w'.
  destruct (process_sensor_data_scored now data w wid eq_refl Hne) as (Hl & _ & _ & Hn).
  fold w' in Hl, Hn.
  exists (result_of now data wid w). split; [exact Hl|].
  assert (Hf : r_final_score (result_of now data wid w) == 82.5).
  { unfold result_of. cbn [r_final_score]. rewrite Hc, Hp. apply scenario1_base. }
  split; [exact scenario1_scores|].
  split; [unfold result_of; cbn [r_base_score]; rewrite Hp; apply scenario1_base|].
  split; [exact Hf|].
  split; [reflexivity|].
  rewrite Hn.
  assert (E : Qltb (r_final_score (result_of now data wid w)) (threshold_of w wid) = false)
    by (apply Qltb_ge; rewrite Hf, Ht; lra).
  now rewrite E.
Qed.

Lemma scenario1_pipeline_witness :
  exists result,
    firestore_hygiene_logs
      (process_sensor_data 0 {| washroom_id_of := Some "W1"; fields := scenario1 |}
         empty_world)
    = [result]
    /\ r_base_score result == 82.5 /\ r_final_score result == 82.5
    /\ r_anomalies result = [].
Proof.
  destruct (scenario1_pipeline 0%Z "W1" empty_world) as (r & H1 & _ & H3 & H4 & H5 & _).
  - discriminate.
  - reflexivity.
  - reflexivity.
  - reflexivity.
  - exists r. split; [exact H1|]. repeat split; assumption.
Defined.



(** C4: for the base score the weighted step produces from any reading under
    any profile, and for every cleaning time and [now], the final score lies
    between 0 and the base score, so that [decay_applied], which the logged
    record sets to base score minus final score, is never negative. *)
Theorem decay_never_increases now :
  (forall wid profile data last_cleaned,
     let base_score :=
       calculate_weighted_score (__init__ wid profile) (calculate_component_scores data) in
     let final_score := apply_time_decay now base_score last_cleaned in
     0 <= final_score <= base_score /\ 0 <= base_score - final_score)
  /\ (forall data w wid,
        washroom_id_of data = Some wid -> wid <> "" ->
        exists result,
          firestore_hygiene_logs (process_sensor_data now data w)
          = (firestore_hygiene_logs w ++ [result])%list
          /\ 0 <= r_final_score result <= r_base_score result
          /\ r_decay_applied result = r_base_score result - r_final_score result
          /\ 0 <= r_decay_applied result).
Proof.
  assert (Engine : forall wid profile data last_cleaned,
             let base_score :=
               calculate_weighted_score (__init__ wid profile)
                 (calculate_component_scores data) in
             0 <= apply_time_decay now base_score last_cleaned <= base_score).
  { intros wid profile data last_cleaned base_score.
    apply apply_time_decay_range.
    - apply base_score_nonneg.
    - unfold base_score. rewrite calculate_weighted_score_sum. apply round_idem. }
  split.
  - intros wid profile data last_cleaned base_score final_score.
    pose proof (Engine wid profile data last_cleaned) as H. cbv zeta in H.
    fold base_score final_score in H. split; [exact H|lra].
  - intros data w wid Hid Hne.
    destruct (process_sensor_data_scored now data w wid Hid Hne) as (Hl & _).
    exists (result_of now data wid w). split; [exact Hl|].
    pose proof (Engine wid (profile_of w wid) (fields data) (last_cleaning_times w !! wid))
      as H. cbv zeta in H.
    unfold result_of. cbn [r_final_score r_base_score r_decay_applied].
    split; [exact H|]. split; [reflexivity|lra].
Qed.

Lemma decay_never_increases_witness :
  exists result,
    firestore_hygiene_logs
      (process_sensor_data (5 * 3600 * 1000000)
         {| washroom_id_of := Some "W1"; fields := scenario1 |} cleaned_world)
    = [result]
    /\ 0 <= r_final_score result <= r_base_score result
    /\ 0 <= r_decay_applied result.
Proof.
  destruct (proj2 (decay_never_increases (5 * 3600 * 1000000))
              {| washroom_id_of := Some "W1"; fields := scenario1 |} cleaned_world "W1")
    as (r & H1 & H2 & _ & H4).
  - reflexivity.
  - discriminate.
  - exists r. split; [exact H1|]. split; assumption.
Defined.

(** C5: [check_alerts] pushes a notification exactly when the final score is
    strictly under the threshold of the washroom's configuration; a score
    equal to the threshold pushes nothing; the notification pushed carries
    the washroom id, the score, the message templated with the score and the
    anomalies of the result. *)
Theorem check_alerts_strict now result w :
  let wid := r_washroom_id result in
  let score := r_final_score result in
  let threshold := threshold_of w wid in
  let w' := check_alerts now result w in
  (score < threshold <-> realtime_notifications w' <> realtime_notifications w)
  /\ (score < threshold ->
        notifications_at w' wid =
        (notifications_at w wid ++
           [ {| n_washroom_id := wid;
                n_timestamp := now;
                n_type := "HYGIENE_ALERT";
                n_score := score;
                n_message := [Lit "Hygiene score dropped to "; Fmt score "";
                              Lit "%. Immediate cleaning required."];
                n_anomalies := r_anomalies result |} ])%list)
  /\ (score == threshold -> realtime_notifications w' = realtime_notifications w).
Proof.
  intros wid score threshold w'.
  pose proof (check_alerts_notifications now result w) as Hn.
  cbv zeta in Hn. fold wid score threshold w' in Hn.
  destruct (Qltb score threshold) eqn:E.
  - apply Qltb_lt in E. split; [|split].
    + split; [intros _|intros _; exact E]. rewrite Hn. apply insert_at_changes.
    + intros _. unfold notifications_at at 1. rewrite Hn.
      unfold get. rewrite lookup_insert_eq. reflexivity.
    + intros H. lra.
  - apply Qltb_ge in E. split; [|split].
    + split; [intros H; lra | intros H; contradiction].
    + intros H. lra.
    + intros _. exact Hn.
Qed.

Lemma check_alerts_strict_witness :
  let result :=
    result_of 0 {| washroom_id_of := Some "W1"; fields := scenario1 |} "W1" strict_world in
  r_final_score result == threshold_of strict_world "W1"
  /\ realtime_notifications (check_alerts 0 result strict_world)
     = realtime_notifications strict_world.
Proof.
  intros result.
  assert (H : r_final_score result == threshold_of strict_world "W1")
    by (vm_compute; reflexivity).
  split; [exact H|].
  exact (proj2 (proj2 (check_alerts_strict 0%Z result strict_world)) H).
Defined.

(** C6: [detect_anomalies] returns the anomalies of four rules, in this
    order and at most one each: air quality over 70 gives ODOR_SPIKE/HIGH,
    floor moisture over 60 gives MOISTURE_ALERT/HIGH, a temperature under 10
    or over 35 gives TEMPERATURE_ANOMALY/MEDIUM with the temperature in its
    message, a footfall over 50 with an air quality score under 40 gives
    HIGH_USAGE/MEDIUM.  The anomalies logged for a payload are those of its
    reading and the scores of its reading, whatever the world and the time. *)
Theorem detect_anomalies_rules data component_scores :
  let air := get data "air_quality" 0 in
  let moisture := get data "floor_moisture" 0 in
  let temp := get data "temperature" 23 in
  let footfall := get data "footfall_count" 0 in
  let air_score := default 100 (getitem component_scores "air_quality") in
  (exists odor moist extreme usage,
    detect_anomalies data component_scores = (odor ++ moist ++ extreme ++ usage)%list
    /\ (70 < air /\
        odor = [ {| a_type := "ODOR_SPIKE"; a_severity := "HIGH";
                    a_message := [Lit "Severe odor/ammonia levels detected"];
                    a_value := data !! "air_quality" |} ]
        \/ air <= 70 /\ odor = [])
    /\ (60 < moisture /\
        moist = [ {| a_type := "MOISTURE_ALERT"; a_severity := "HIGH";
                     a_message := [Lit "Wet floor or potential leakage detected"];
                     a_value := data !! "floor_moisture" |} ]
        \/ moisture <= 60 /\ moist = [])
    /\ ((temp < 10 \/ 35 < temp) /\
        extreme = [ {| a_type := "TEMPERATURE_ANOMALY"; a_severity := "MEDIUM";
                       a_message := [Lit "Unusual temperature: "; Fmt temp ""; Lit "°C"];
                       a_value := Some temp |} ]
        \/ (10 <= temp /\ temp <= 35) /\ extreme = [])
    /\ ((50 < footfall /\ air_score < 40) /\
        usage = [ {| a_type := "HIGH_USAGE"; a_severity := "MEDIUM";
                     a_message := [Lit "High usage detected, cleaning recommended"];
                     a_value := data !! "footfall_count" |} ]
        \/ (footfall <= 50 \/ 40 <= air_score) /\ usage = []))
  /\ (forall now payload wid w,
        washroom_id_of payload = Some wid -> wid <> "" ->
        exists result,
          firestore_hygiene_logs (process_sensor_data now payload w)
          = (firestore_hygiene_logs w ++ [result])%list
          /\ r_anomalies result =
             detect_anomalies (fields payload) (calculate_component_scores (fields payload))).
Proof.
  intros air moisture temp footfall air_score. split.
  2:{ intros now payload wid w Hid Hne.
      destruct (process_sensor_data_scored now payload w wid Hid Hne) as (Hl & _).
      exists (result_of now payload wid w). split; [exact Hl|reflexivity]. }
  unfold detect_anomalies, append.
  fold air moisture temp footfall air_score.
  set (c1 := Qltb 70 air). set (c2 := Qltb 60 moisture).
  set (c3 := Qltb temp 10 || Qltb 35 temp).
  set (c4 := Qltb 50 footfall && Qltb air_score 40).
  match goal with
  | |- context [if c1 then ([] ++ [?a])%list else _] => exists (if c1 then [a] else [])
  end.
  match goal with
  | |- context [if c2 then (_ ++ [?a])%list else _] => exists (if c2 then [a] else [])
  end.
  match goal with
  | |- context [if c3 then (_ ++ [?a])%list else _] => exists (if c3 then [a] else [])
  end.
  match goal with
  | |- context [if c4 then (_ ++ [?a])%list else _] => exists (if c4 then [a] else [])
  end.
  split; [destruct c1, c2, c3, c4; reflexivity|].
  repeat split.
  - subst c1. destruct (Qltb 70 air) eqn:E; Qreflect; auto.
  - subst c2. destruct (Qltb 60 moisture) eqn:E; Qreflect; auto.
  - subst c3.
    destruct (Qltb temp 10) eqn:E; destruct (Qltb 35 temp) eqn:E'; Qreflect; simpl; auto.
  - subst c4.
    destruct (Qltb 50 footfall) eqn:E; destruct (Qltb air_score 40) eqn:E'; Qreflect;
      simpl; auto.
Qed.



(** C8: the decay amount is zero up to one hour after the cleaning, never
    decreases as the hours grow, and is 4 from nine hours on; it is what
    [apply_time_decay] subtracts from the base score once the first hour has
    passed. *)
Theorem decay_amount_shape :
  (forall h, h <= 1 -> decay_amount h == 0)
  /\ (forall h1 h2, h1 <= h2 -> decay_amount h1 <= decay_amount h2)
  /\ (forall h, 9 <= h -> decay_amount h == 4)
  /\ (forall now base t,
        apply_time_decay now base (Some t) =
        if Qleb (hours_since now t) 1 then base
        else round (Qmax 0 (base - decay_amount (hours_since now t))) 2).
Proof.
  split; [|split; [|split]].
  - intros h H. unfold decay_amount, MAX_DECAY_HOURS, DECAY_RATE. Qcases; lra.
  - intros h1 h2 H. unfold decay_amount, MAX_DECAY_HOURS, DECAY_RATE. Qcases; lra.
  - intros h H. unfold decay_amount, MAX_DECAY_HOURS, DECAY_RATE. Qcases; lra.
  - apply apply_time_decay_charged.
Qed.

(** C9: a payload without [washroom_id] is dropped at once: the processor
    prints the error and returns; the caches, the two stores and the list of
    calls made to them (no configuration lookup, no write, no push) are as
    they were. *)
Theorem missing_washroom_id_aborts now data w :
  washroom_id_of data = None ->
  let w' := process_sensor_data now data w in
  stores w' = stores w
  /\ console w' = (console w ++ [[Lit "✗ Missing washroom_id in data"]])%list.
Proof.
  intros H w'. subst w'. unfold process_sensor_data. rewrite H. split; reflexivity.
Qed.

Lemma missing_washroom_id_aborts_witness :
  let data := {| washroom_id_of := None; fields := scenario1 |} in
  stores (process_sensor_data 0 data empty_world) = stores empty_world.
Proof.
  intros data.
  exact (proj1 (missing_washroom_id_aborts 0%Z data empty_world eq_refl)).
Defined.

(** C10: when the configuration of a washroom names a profile other than
    office, public, hospital and restaurant, the engine takes the weights of
    [public], the base score logged is the one computed under [public], and
    the profile logged is the configured name. *)
Theorem unknown_profile_scores_as_public now data w wid profile :
  profile ∉ ["office"; "public"; "hospital"; "restaurant"] ->
  washroom_id_of data = Some wid -> wid <> "" ->
  cfg_profile (config_of w wid) = Some profile ->
  weights (__init__ wid profile) = WEIGHT_PROFILES !!! "public"
  /\ exists result,
       firestore_hygiene_logs (process_sensor_data now data w)
       = (firestore_hygiene_logs w ++ [result])%list
       /\ r_profile result = profile
       /\ r_base_score result =
          calculate_weighted_score (__init__ wid "public")
            (calculate_component_scores (fields data)).
Proof.
  intros Hp Hid Hne Hc.
  assert (Hw : weights (__init__ wid profile) = WEIGHT_PROFILES !!! "public").
  { unfold __init__. cbn [weights]. rewrite (unknown_profile_table profile Hp). reflexivity. }
  split; [exact Hw|].
  destruct (process_sensor_data_scored now data w wid Hid Hne) as (Hl & _).
  exists (result_of now data wid w). split; [exact Hl|].
  unfold result_of, profile_of. rewrite Hc. cbn [r_profile r_base_score from_option id].
  split; [reflexivity|].
  unfold calculate_weighted_score. rewrite Hw. reflexivity.
Qed.

Lemma unknown_profile_scores_as_public_witness :
  exists result,
    firestore_hygiene_logs
      (process_sensor_data 0 {| washroom_id_of := Some "W1"; fields := scenario1 |}
         misconfigured_world) = [result]
    /\ r_profile result = "school"
    /\ r_base_score result == 82.5.
Proof.
  destruct (unknown_profile_scores_as_public 0%Z
              {| washroom_id_of := Some "W1"; fields := scenario1 |}
              misconfigured_world "W1" "school") as (_ & r & H1 & H2 & H3).
  - rewrite !not_elem_of_cons. repeat split; try discriminate. apply not_elem_of_nil.
  - reflexivity.
  - discriminate.
  - reflexivity.
  - exists r. split; [exact H1|]. split; [exact H2|].
    rewrite H3. apply scenario1_base.
Defined.

(** * Further properties of the backend *)

(** ** The score engine under every reading *)

Lemma init_weights_cases wid profile :
  exists p, p ∈ ["office"; "public"; "hospital"; "restaurant"]
            /\ weights (__init__ wid profile) = WEIGHT_PROFILES !!! p.
Proof.
  unfold __init__. cbn [weights].
  destruct (decide (profile ∈ ["office"; "public"; "hospital"; "restaurant"])) as [Hin|Hout].
  - exists profile. split; [exact Hin|].
    rewrite !elem_of_cons in Hin.
    destruct Hin as [->|[->|[->|[->|Hin]]]]; [reflexivity..|].
    now apply elem_of_nil in Hin.
  - exists "public". split; [set_solver|].
    now rewrite (unknown_profile_table profile Hout).
Qed.

(** The weights of every profile add up to one over the five components. *)
Lemma init_weights_sum wid profile :
  weighted_sum (weights (__init__ wid profile))
    [("air_quality", 1); ("floor_moisture", 1); ("humidity", 1);
     ("temperature", 1); ("footfall_density", 1)] == 1.
Proof.
  destruct (init_weights_cases wid profile) as (p & Hp & ->).
  rewrite !elem_of_cons in Hp.
  destruct Hp as [->|[->|[->|[->|Hp]]]]; [vm_compute; reflexivity..|].
  now apply elem_of_nil in Hp.
Qed.

Lemma weighted_sum_mono weights cs1 cs2 :
  (forall c, 0 <= get weights c 0) ->
  Forall2 (fun kv1 kv2 => kv1.1 = kv2.1 /\ kv1.2 <= kv2.2) cs1 cs2 ->
  weighted_sum weights cs1 <= weighted_sum weights cs2.
Proof.
  intros Hw. induction 1 as [|[c1 s1] [c2 s2] cs1 cs2 [Hk Hv] _ IH]; simpl in *; [lra|].
  subst c2. specialize (Hw c1). unfold get in Hw.
  destruct (weights !! c1) as [q|]; [|lra].
  assert (s1 * q <= s2 * q) by (apply Qmult_le_compat_r; assumption). lra.
Qed.

Lemma weighted_sum_scale weights (cs : list (string * Q)) k :
  weighted_sum weights (map (fun kv => (kv.1, k)) cs)
  == k * weighted_sum weights (map (fun kv => (kv.1, 1)) cs).
Proof.
  induction cs as [|[c s] cs IH]; simpl; [lra|].
  rewrite IH. destruct (weights !! c); lra.
Qed.

Lemma weighted_sum_between weights (cs : list (string * Q)) lo hi :
  (forall c, 0 <= get weights c 0) ->
  Forall (fun kv => lo <= kv.2 <= hi) cs ->
  lo * weighted_sum weights (map (fun kv => (kv.1, 1)) cs) <= weighted_sum weights cs
  /\ weighted_sum weights cs <= hi * weighted_sum weights (map (fun kv => (kv.1, 1)) cs).
Proof.
  intros Hw Hcs. rewrite <- !weighted_sum_scale. split.
  - apply weighted_sum_mono; [exact Hw|].
    induction Hcs as [|[c s] cs [H1 H2] _ IH]; simpl; constructor; auto.
  - apply weighted_sum_mono; [exact Hw|].
    induction Hcs as [|[c s] cs [H1 H2] _ IH]; simpl; constructor; auto.
Qed.

Lemma component_keys data :
  map (fun kv => (kv.1, 1)) (calculate_component_scores data) =
  [("air_quality", 1); ("floor_moisture", 1); ("humidity", 1);
   ("temperature", 1); ("footfall_density", 1)].
Proof. rewrite calculate_component_scores_items. reflexivity. Qed.



Lemma get_insert_eq (data : sensor_data) k v dflt : get (<[k := v]> data) k dflt = v.
Proof. unfold get. now rewrite lookup_insert_eq. Qed.

Lemma get_insert_ne (data : sensor_data) k k' v dflt :
  k <> k' -> get (<[k := v]> data) k' dflt = get data k' dflt.
Proof. intros H. unfold get. now rewrite lookup_insert_ne. Qed.

Lemma get_missing (data : sensor_data) k dflt : data !! k = None -> get data k dflt = dflt.
Proof. intros H. unfold get. now rewrite H. Qed.

(** X2.  A reading whose raw air quality, floor moisture and footfall count
    are not negative gets a base score in [0, 100] under every profile, and a
    final score in [0, 100] whenever the washroom was last cleaned. *)
Theorem sane_reading_scores_in_range now wid profile data last_cleaned :
  0 <= get data "air_quality" 50 ->
  0 <= get data "floor_moisture" 30 ->
  0 <= get data "footfall_count" 0 ->
  let base_score :=
    calculate_weighted_score (__init__ wid profile) (calculate_component_scores data) in
  0 <= base_score <= 100
  /\ 0 <= apply_time_decay now base_score last_cleaned <= 100.
Proof.
  intros Ha Hm Hf base_score.
  assert (Hb : 0 <= base_score <= 100).
  { unfold base_score. rewrite calculate_weighted_score_sum.
    destruct (weighted_sum_between (weights (__init__ wid profile)) _ 0 100
                (init_weights_nonneg wid profile)
                (component_scores_in_range data Ha Hm Hf)) as [Hlo Hhi].
    rewrite component_keys, init_weights_sum in Hlo, Hhi.
    split.
    - apply round_nonneg. lra.
    - assert (E : round 100 2 == 100) by (vm_compute; reflexivity).
      rewrite <- E. apply round_mono. lra. }
  split; [exact Hb|].
  assert (Hd : 0 <= apply_time_decay now base_score last_cleaned <= base_score).
  { apply apply_time_decay_range; [apply Hb|].
    unfold base_score. rewrite calculate_weighted_score_sum. apply round_idem. }
  lra.
Qed.

Lemma sane_reading_scores_in_range_witness :
  0 <= calculate_weighted_score (__init__ "W1" "office") (calculate_component_scores dirty_reading)
  <= 100.
Proof.
  apply (sane_reading_scores_in_range 0%Z "W1" "office" dirty_reading None);
    vm_compute; discriminate.
Defined.

(** X3.  Raising the raw air quality, floor moisture or footfall count of a
    reading, the other fields kept, never raises its base score, under any
    profile. *)
Theorem worse_reading_never_scores_better wid profile data field x y :
  field ∈ ["air_quality"; "floor_moisture"; "footfall_count"] ->
  x <= y ->
  calculate_weighted_score (__init__ wid profile)
    (calculate_component_scores (<[field := y]> data))
  <= calculate_weighted_score (__init__ wid profile)
       (calculate_component_scores (<[field := x]> data)).
Proof.
  intros Hf Hxy. rewrite !calculate_weighted_score_sum.
  apply round_mono, weighted_sum_mono; [apply init_weights_nonneg|].
  rewrite !calculate_component_scores_items.
  rewrite !elem_of_cons in Hf.
  destruct Hf as [->|[->|[->|Hf]]]; [..|now apply elem_of_nil in Hf];
    rewrite ?get_insert_eq, ?get_insert_ne by discriminate;
    repeat (apply List.Forall2_cons; [split; [reflexivity|cbn [snd]]|]);
    try apply List.Forall2_nil; try apply Qle_refl.
  - Qminmax; lra.
  - Qminmax; lra.
  - rewrite !footfall_normalised. Qminmax; lra.
Qed.

Lemma worse_reading_never_scores_better_witness :
  calculate_weighted_score (__init__ "W1" "public")
    (calculate_component_scores (<["air_quality" := 90]> scenario1))
  <= calculate_weighted_score (__init__ "W1" "public")
       (calculate_component_scores (<["air_quality" := 30]> scenario1)).
Proof.
  apply worse_reading_never_scores_better; [set_solver|discriminate].
Defined.

(** The kinds of the anomalies raised, rule by rule. *)
Lemma detect_anomalies_types data cs :
  map a_type (detect_anomalies data cs) =
  ((if Qltb 70 (get data "air_quality" 0) then ["ODOR_SPIKE"] else [])
   ++ (if Qltb 60 (get data "floor_moisture" 0) then ["MOISTURE_ALERT"] else [])
   ++ (if Qltb (get data "temperature" 23) 10 || Qltb 35 (get data "temperature" 23)
       then ["TEMPERATURE_ANOMALY"] else [])
   ++ (if Qltb 50 (get data "footfall_count" 0)
          && Qltb (default 100 (getitem cs "air_quality")) 40
       then ["HIGH_USAGE"] else []))%list.
Proof.
  unfold detect_anomalies, append.
  destruct (Qltb 70 _), (Qltb 60 _), (Qltb _ 10 || Qltb 35 _), (Qltb 50 _ && Qltb _ 40);
    reflexivity.
Qed.

Lemma air_quality_score data :
  default 100 (getitem (calculate_component_scores data) "air_quality")
  = Qmax 0 (100 - get data "air_quality" 50).
Proof. rewrite calculate_component_scores_items. reflexivity. Qed.

Lemma elem_of_when (b : bool) (x y : string) :
  x ∈ (if b then [y] else []) <-> b = true /\ x = y.
Proof.
  destruct b.
  - rewrite list_elem_of_singleton. intuition.
  - split; [intros H; now apply elem_of_nil in H|intros [H _]; discriminate].
Qed.

Lemma odor_spike_raised data cs :
  "ODOR_SPIKE" ∈ map a_type (detect_anomalies data cs) <-> 70 < get data "air_quality" 0.
Proof.
  rewrite detect_anomalies_types, !elem_of_app, !elem_of_when, Qltb_lt.
  split; [|intuition].
  intros [[H _]|[[_ H]|[[_ H]|[_ H]]]]; [exact H|discriminate..].
Qed.

Lemma high_usage_raised data cs :
  "HIGH_USAGE" ∈ map a_type (detect_anomalies data cs)
  <-> (50 < get data "footfall_count" 0 /\ default 100 (getitem cs "air_quality") < 40).
Proof.
  rewrite detect_anomalies_types, !elem_of_app, !elem_of_when, andb_true_iff, !Qltb_lt.
  split; [|intuition].
  intros [[_ H]|[[_ H]|[[_ H]|[H _]]]]; [discriminate..|exact H].
Qed.

(** X4.  In the pipeline, where the anomaly detector gets the component scores
    of the same reading, HIGH_USAGE is raised exactly when the footfall count
    is above 50 and the raw air quality above 60; an odor spike with such a
    footfall always comes with it; and a reading without air quality raises
    neither of the two, since the score falls back to 50 and the detector to
    0. *)
Theorem high_usage_in_pipeline data :
  let kinds := map a_type (detect_anomalies data (calculate_component_scores data)) in
  ("HIGH_USAGE" ∈ kinds
   <-> (50 < get data "footfall_count" 0 /\ 60 < get data "air_quality" 50))
  /\ ("ODOR_SPIKE" ∈ kinds -> 50 < get data "footfall_count" 0 -> "HIGH_USAGE" ∈ kinds)
  /\ (data !! "air_quality" = None -> ("ODOR_SPIKE" ∉ kinds) /\ ("HIGH_USAGE" ∉ kinds)).
Proof.
  intros kinds. subst kinds.
  rewrite odor_spike_raised, high_usage_raised, air_quality_score.
  assert (Hscore : Qmax 0 (100 - get data "air_quality" 50) < 40
                   <-> 60 < get data "air_quality" 50)
    by (split; intros H; Qminmax; lra).
  rewrite Hscore. unfold get.
  destruct (data !! "air_quality") as [raw|].
  - split; [reflexivity|]. split; [intros; lra|discriminate].
  - split; [reflexivity|]. split; [intros; lra|]. intros _. split; intros H; lra.
Qed.

Lemma sensorless_gets (data : sensor_data) :
  Forall (fun kd => data !! kd.1 = None) scoring_defaults ->
  data !! "air_quality" = None /\ data !! "floor_moisture" = None
  /\ data !! "humidity" = None /\ data !! "temperature" = None
  /\ data !! "footfall_count" = None.
Proof.
  unfold scoring_defaults. rewrite !Forall_cons. cbn [fst]. intuition.
Qed.

Lemma sensorless_scores (data : sensor_data) :
  Forall (fun kd => data !! kd.1 = None) scoring_defaults ->
  calculate_component_scores data = calculate_component_scores ∅.
Proof.
  intros H. destruct (sensorless_gets data H) as (H1 & H2 & H3 & H4 & H5).
  rewrite !calculate_component_scores_items.
  rewrite !(get_missing data) by assumption. reflexivity.
Qed.

(** X5.  A reading that carries none of the five sensor fields is scored on
    the defaults alone: component scores 50, 70, 100, 100, 100, no anomaly, a
    base score between 71 and 77.5 under every profile, and the label GOOD on
    the dashboard. *)
Theorem sensorless_reading_scores_good wid profile (data : sensor_data) :
  Forall (fun kd => data !! kd.1 = None) scoring_defaults ->
  let scores := calculate_component_scores data in
  let base_score := calculate_weighted_score (__init__ wid profile) scores in
  same_scores scores
    [("air_quality", 50); ("floor_moisture", 70); ("humidity", 100);
     ("temperature", 100); ("footfall_density", 100)]
  /\ detect_anomalies data scores = []
  /\ 71 <= base_score <= 77.5
  /\ status base_score = "🟢 GOOD".
Proof.
  intros H scores base_score.
  assert (Hb : 71 <= base_score <= 77.5).
  { unfold base_score, scores. rewrite (sensorless_scores data H).
    rewrite calculate_weighted_score_sum.
    destruct (init_weights_cases wid profile) as (p & Hp & ->).
    rewrite !elem_of_cons in Hp.
    destruct Hp as [->|[->|[->|[->|Hp]]]]; [vm_compute; split; discriminate..|].
    now apply elem_of_nil in Hp. }
  split; [|split; [|split; [exact Hb|]]].
  - unfold scores. rewrite (sensorless_scores data H). vm_compute. repeat constructor.
  - destruct (sensorless_gets data H) as (H1 & H2 & H3 & H4 & H5).
    unfold detect_anomalies. rewrite !(get_missing data) by assumption. reflexivity.
  - unfold status. assert (E : Qleb 70 base_score = true) by (apply Qleb_le; lra).
    now rewrite E.
Qed.

Lemma sensorless_reading_scores_good_witness :
  detect_anomalies {[ "uptime_ms" := 5 ]} (calculate_component_scores {[ "uptime_ms" := 5 ]})
  = []
  /\ status (calculate_weighted_score (__init__ "W1" "hospital")
               (calculate_component_scores {[ "uptime_ms" := 5 ]})) = "🟢 GOOD".
Proof.
  destruct (sensorless_reading_scores_good "W1" "hospital" {[ "uptime_ms" := 5 ]})
    as (_ & H2 & _ & H4).
  - repeat (apply Forall_cons_2; [reflexivity|]). apply Forall_nil_2.
  - split; assumption.
Defined.

(** X6.  Leaving a sensor field out of a reading is the same as sending the
    default the score computation uses for it: the component scores and the
    anomalies are equal. *)
Theorem missing_field_is_default field dflt (data : sensor_data) :
  (field, dflt) ∈ scoring_defaults ->
  data !! field = None ->
  calculate_component_scores (<[field := dflt]> data) = calculate_component_scores data
  /\ detect_anomalies (<[field := dflt]> data) (calculate_component_scores (<[field := dflt]> data))
     = detect_anomalies data (calculate_component_scores data).
Proof.
  intros Hin Hnone.
  assert (Hs : calculate_component_scores (<[field := dflt]> data)
               = calculate_component_scores data).
  { rewrite !calculate_component_scores_items.
    unfold scoring_defaults in Hin. rewrite !elem_of_cons in Hin.
    destruct Hin as [E|[E|[E|[E|[E|E]]]]]; [..|now apply elem_of_nil in E];
      injection E as -> ->;
      rewrite ?get_insert_eq, ?get_insert_ne by discriminate;
      rewrite ?(get_missing data _ _ Hnone); reflexivity. }
  split; [exact Hs|]. rewrite Hs.
  unfold detect_anomalies.
  unfold scoring_defaults in Hin. rewrite !elem_of_cons in Hin.
  destruct Hin as [E|[E|[E|[E|[E|E]]]]]; [..|now apply elem_of_nil in E];
    injection E as -> ->;
    rewrite ?get_insert_eq, ?get_insert_ne by discriminate;
    rewrite ?(get_missing data _ _ Hnone);
    try change (Qltb 70 50) with false; try change (Qltb 70 0) with false;
    try change (Qltb 60 30) with false; try change (Qltb 60 0) with false;
    try change (Qltb 50 0) with false;
    try change (Qltb 23 10 || Qltb 35 23) with false;
    cbn [andb];
    rewrite ?lookup_insert_ne by discriminate; reflexivity.
Qed.

Lemma missing_field_is_default_witness :
  calculate_component_scores (<["floor_moisture" := 30]> {[ "air_quality" := 85 ]})
  = calculate_component_scores {[ "air_quality" := 85 ]}.
Proof.
  apply (missing_field_is_default "floor_moisture" 30 {[ "air_quality" := 85 ]}).
  - unfold scoring_defaults. set_solver.
  - reflexivity.
Defined.

(** A number with two decimals stays one when a whole number is taken off. *)
Lemma round_shift base (k : Z) :
  round base 2 == base -> round (base - inject_Z k) 2 == base - inject_Z k.
Proof.
  intros H.
  assert (E : base - inject_Z k
              == inject_Z (round_half_even (base * inject_Z (10 ^ Z.of_nat 2)) - k * 100)
                 / inject_Z (10 ^ Z.of_nat 2)).
  { rewrite <- H at 1. unfold round.
    change (inject_Z (10 ^ Z.of_nat 2)) with 100.
    unfold Z.sub. rewrite inject_Z_plus, inject_Z_opp, inject_Z_mult.
    change (inject_Z 100) with 100. field. }
  rewrite (round_ext _ _ 2 E), round_fix. symmetry. exact E.
Qed.

Lemma decay_amount_mono h1 h2 : h1 <= h2 -> decay_amount h1 <= decay_amount h2.
Proof. intros H. unfold decay_amount, MAX_DECAY_HOURS, DECAY_RATE. Qcases; lra. Qed.

Lemma hours_since_mono now1 now2 t :
  (now1 <= now2)%Z -> hours_since now1 t <= hours_since now2 t.
Proof.
  intros H. unfold hours_since, total_seconds.
  assert (Hz : inject_Z (now1 - t) <= inject_Z (now2 - t)) by (rewrite <- Zle_Qle; lia).
  assert (E : forall x, x / 1000000 / 3600 == x * (1 # 3600000000)) by (intros; field).
  rewrite !E. lra.
Qed.

Lemma apply_time_decay_floor now base last :
  0 <= base -> round base 2 == base ->
  base - 4 <= apply_time_decay now base last.
Proof.
  intros H0 Hr.
  destruct last as [t|]; [|unfold apply_time_decay; lra].
  rewrite apply_time_decay_charged.
  destruct (Qleb (hours_since now t) 1) eqn:E; [lra|].
  apply Qleb_gt in E. pose proof (decay_amount_bounds _ E) as [_ Hd].
  rewrite <- (round_shift base 4 Hr). apply round_mono.
  change (inject_Z 4) with 4. Qminmax; lra.
Qed.

Lemma apply_time_decay_later now1 now2 base t :
  0 <= base -> round base 2 == base -> (now1 <= now2)%Z ->
  apply_time_decay now2 base (Some t) <= apply_time_decay now1 base (Some t).
Proof.
  intros H0 Hr Hn.
  pose proof (hours_since_mono now1 now2 t Hn) as Hh.
  pose proof (decay_amount_mono _ _ Hh) as Hd.
  rewrite (apply_time_decay_charged now1).
  destruct (Qleb (hours_since now1 t) 1) eqn:E1.
  - apply (apply_time_decay_range now2 base (Some t) H0 Hr).
  - rewrite apply_time_decay_charged.
    destruct (Qleb (hours_since now2 t) 1) eqn:E2; Qreflect; [lra|].
    apply round_mono. Qminmax; lra.
Qed.

Lemma base_score_two_decimals wid profile data :
  let base_score :=
    calculate_weighted_score (__init__ wid profile) (calculate_component_scores data) in
  round base_score 2 == base_score.
Proof. intros b. unfold b. rewrite calculate_weighted_score_sum. apply round_idem. Qed.


(** X8.  With the same reading and the same last cleaning, the final score at
    a later instant is never above the final score at an earlier one. *)
Theorem score_never_recovers_with_time now1 now2 wid profile data last_cleaned :
  (now1 <= now2)%Z ->
  let base_score :=
    calculate_weighted_score (__init__ wid profile) (calculate_component_scores data) in
  apply_time_decay now2 base_score last_cleaned
  <= apply_time_decay now1 base_score last_cleaned.
Proof.
  intros Hn base_score.
  destruct last_cleaned as [t|]; [|unfold apply_time_decay; lra].
  apply apply_time_decay_later;
    [apply base_score_nonneg|apply base_score_two_decimals|exact Hn].
Qed.

Lemma score_never_recovers_with_time_witness :
  apply_time_decay (9 * 3600 * 1000000)
    (calculate_weighted_score (__init__ "W1" "public") (calculate_component_scores scenario1))
    (Some 0%Z)
  <= apply_time_decay (2 * 3600 * 1000000)
       (calculate_weighted_score (__init__ "W1" "public") (calculate_component_scores scenario1))
       (Some 0%Z).
Proof.
  apply (score_never_recovers_with_time (2 * 3600 * 1000000) (9 * 3600 * 1000000)
           "W1" "public" scenario1 (Some 0%Z)).
  lia.
Defined.

(** ** One reading through the processor *)

Arguments send_cleaner_notification : simpl never.

Lemma get_washroom_config_calls wid w :
  calls (get_washroom_config wid w).2 = (calls w ++ config_calls w wid)%list.
Proof.
  unfold get_washroom_config, config_calls.
  destruct (washroom_configs w !! wid); [cbn; now rewrite app_nil_r|].
  cbn [called firestore_washroom_configs].
  destruct (firestore_washroom_configs w !! wid); cbn; unfold append;
    [reflexivity|now rewrite <- app_assoc].
Qed.

Lemma get_washroom_config_caches wid w :
  washroom_configs (get_washroom_config wid w).2
  = <[wid := (get_washroom_config wid w).1]> (washroom_configs w).
Proof.
  unfold get_washroom_config.
  destruct (washroom_configs w !! wid) eqn:E; cbn.
  - symmetry. now apply insert_id.
  - destruct (firestore_washroom_configs w !! wid); reflexivity.
Qed.

(** [process_sensor_data] on a payload that names its washroom, step by step. *)
Lemma process_sensor_data_steps now data w wid :
  washroom_id_of data = Some wid -> wid <> "" ->
  let w1 := (get_washroom_config wid w).2 in
  let result := result_of now data wid w in
  let w2 := store_in_firebase result w1 in
  let w3 :=
    if Qltb (r_final_score result) (threshold_of w wid) then
      send_cleaner_notification now wid (r_final_score result) (r_anomalies result) w2
    else w2 in
  process_sensor_data now data w =
  print_report wid (r_profile result) (r_final_score result) (r_base_score result)
    (r_component_scores result) (r_anomalies result)
    (set_last_scores (insert wid (r_final_score result)) w3).
Proof.
  intros Hid Hne w1 result w2 w3. subst w1 result w2 w3.
  unfold process_sensor_data, result_of, profile_of, threshold_of, config_of, check_alerts.
  rewrite Hid, (truth_Some wid Hne). cbv [negb from_option id].
  pose proof (get_washroom_config_frame wid w) as (Hc & _).
  pose proof (get_washroom_config_cached wid w) as Hcache.
  destruct (get_washroom_config wid w) as [config w1]. cbv [fst snd] in *.
  rewrite Hc.
  cbn [r_washroom_id r_final_score r_profile r_base_score r_component_scores r_anomalies].
  match goal with
  | |- context [get_washroom_config wid (store_in_firebase ?r w1)] =>
      rewrite (get_washroom_config_hit wid (store_in_firebase r w1) config) by exact Hcache
  end.
  reflexivity.
Qed.

Lemma process_sensor_data_effects now data w wid :
  washroom_id_of data = Some wid -> wid <> "" ->
  let w' := process_sensor_data now data w in
  let result := result_of now data wid w in
  washroom_configs w' = <[wid := config_of w wid]> (washroom_configs w)
  /\ firestore_washroom_configs w'
     = firestore_washroom_configs (get_washroom_config wid w).2
  /\ realtime_current w' = <[wid := current_of result]> (realtime_current w)
  /\ calls w'
     = (calls w ++ config_calls w wid
        ++ scoring_calls wid (Qltb (r_final_score result) (threshold_of w wid)))%list.
Proof.
  intros Hid Hne w' result. subst w'.
  rewrite (process_sensor_data_steps now data w wid Hid Hne). cbv zeta. fold result.
  match goal with |- context [print_report ?a ?b ?c ?d ?e ?f ?g] =>
    destruct (stores_fields _ _ (print_report_stores a b c d e f g))
      as (Hp1 & _ & _ & Hp4 & _ & Hp6 & _ & Hp8)
  end.
  rewrite Hp1, Hp4, Hp6, Hp8.
  pose proof (get_washroom_config_frame wid w) as (_ & _ & _ & Hr & _).
  pose proof (get_washroom_config_caches wid w) as Hcfg.
  pose proof (get_washroom_config_calls wid w) as Hcalls.
  cbv zeta in Hr. unfold config_of.
  assert (Hrid : r_washroom_id result = wid) by reflexivity.
  destruct (Qltb (r_final_score result) (threshold_of w wid));
    unfold send_cleaner_notification, store_in_firebase, scoring_calls, current_of, append;
    cbn [washroom_configs firestore_washroom_configs realtime_current calls
         set_last_scores set_realtime_notifications set_realtime_current
         set_firestore_hygiene_logs called print];
    rewrite Hrid, Hcfg, Hr, Hcalls; unfold append; cbn [app];
    rewrite <- ?app_assoc; cbn [app]; repeat split; reflexivity.
Qed.

Arguments process_sensor_data : simpl never.

Lemma quiet_print line w : quiet w (print line w).
Proof.
  unfold quiet. cbn. repeat split; try reflexivity.
  - exists []. split; [now rewrite app_nil_r|constructor].
  - unfold append. now apply prefix_app_r.
Qed.

Lemma process_sensor_data_dropped now data w :
  truth (washroom_id_of data) = false ->
  process_sensor_data now data w = print [Lit "✗ Missing washroom_id in data"] w.
Proof. intros H. unfold process_sensor_data. now rewrite H. Qed.

Lemma on_mqtt_message_scored now msg b wid data :
  reading_of msg = Some (wid, data) ->
  washroom_id_of data = Some wid /\ wid <> ""
  /\ on_mqtt_message now msg b = on_world (process_sensor_data now data) b.
Proof.
  unfold reading_of, on_mqtt_message. destruct msg as [e|m]; [discriminate|].
  destruct (type_of m) as [type|]; cbn [fmap option_fmap option_map from_option].
  - rewrite String.eqb_sym.
    destruct (String.eqb type "heartbeat"); [discriminate|].
    destruct (washroom_id_of (data_of m)) as [wid'|] eqn:E; [|discriminate].
    destruct (String.eqb_spec wid' ""); [discriminate|].
    intros [= <- <-]. auto.
  - destruct (washroom_id_of (data_of m)) as [wid'|] eqn:E; [|discriminate].
    destruct (String.eqb_spec wid' ""); [discriminate|].
    intros [= <- <-]. auto.
Qed.

Lemma on_mqtt_message_unscored now msg b :
  reading_of msg = None ->
  quiet (world_of b) (world_of (on_mqtt_message now msg b)).
Proof.
  unfold reading_of, on_mqtt_message. destruct msg as [e|m]; [intros _; apply quiet_print|].
  assert (Hdrop : (match washroom_id_of (data_of m) with
                   | Some wid => if String.eqb wid "" then None else Some (wid, data_of m)
                   | None => None
                   end = None) ->
                  quiet (world_of b)
                    (world_of (on_world (process_sensor_data now (data_of m)) b))).
  { intros H. cbn [on_world world_of].
    rewrite process_sensor_data_dropped; [apply quiet_print|].
    unfold truth. destruct (washroom_id_of (data_of m)) as [wid|]; [|reflexivity].
    destruct (String.eqb wid ""); [reflexivity|discriminate]. }
  destruct (type_of m) as [type|]; cbn [fmap option_fmap option_map from_option];
    [|exact Hdrop].
  rewrite String.eqb_sym.
  destruct (String.eqb type "heartbeat"); [intros _|exact Hdrop].
  unfold handle_heartbeat, quiet. cbn. repeat split; try reflexivity.
  eexists. split; [reflexivity|]. repeat constructor. eauto.
Qed.

Lemma run_cons now msg msgs b :
  loop_forever ((now, msg) :: msgs) b = loop_forever msgs (on_mqtt_message now msg b).
Proof. reflexivity. Qed.

Lemma get_washroom_config_others wid other w :
  other <> wid ->
  washroom_configs (get_washroom_config wid w).2 !! other = washroom_configs w !! other
  /\ firestore_washroom_configs (get_washroom_config wid w).2 !! other
     = firestore_washroom_configs w !! other.
Proof.
  intros Hne. unfold get_washroom_config.
  destruct (washroom_configs w !! wid); [easy|].
  cbn [called firestore_washroom_configs].
  destruct (firestore_washroom_configs w !! wid); cbn;
    rewrite ?lookup_insert_ne by congruence; easy.
Qed.

Lemma get_washroom_config_keeps_document wid w doc :
  firestore_washroom_configs w !! wid = Some doc ->
  firestore_washroom_configs (get_washroom_config wid w).2 = firestore_washroom_configs w.
Proof.
  intros H. unfold get_washroom_config.
  destruct (washroom_configs w !! wid); [reflexivity|].
  cbn [called firestore_washroom_configs]. now rewrite H.
Qed.

(** X9.  A configuration is looked up once: a second lookup returns the same
    configuration and changes nothing, also after the documents of Firestore
    have changed; a lookup never overwrites a document that exists, and leaves
    the cache and the documents of every other washroom as they were. *)
Theorem config_lookup_is_cached wid w :
  let config := (get_washroom_config wid w).1 in
  let w1 := (get_washroom_config wid w).2 in
  get_washroom_config wid w1 = (config, w1)
  /\ (forall f,
        get_washroom_config wid (set_firestore_washroom_configs f w1)
        = (config, set_firestore_washroom_configs f w1))
  /\ (forall doc,
        firestore_washroom_configs w !! wid = Some doc ->
        firestore_washroom_configs w1 = firestore_washroom_configs w)
  /\ (forall other,
        other <> wid ->
        washroom_configs w1 !! other = washroom_configs w !! other
        /\ firestore_washroom_configs w1 !! other = firestore_washroom_configs w !! other).
Proof.
  intros config w1.
  pose proof (get_washroom_config_cached wid w) as Hc. fold config w1 in Hc.
  split; [now apply get_washroom_config_hit|].
  split; [intros f; now apply get_washroom_config_hit|].
  split; [apply get_washroom_config_keeps_document|].
  intros other. apply get_washroom_config_others.
Qed.

(** X10.  After a reading is processed, the last entry of the log, the cached
    last score, the current state of the realtime database and the cached
    configuration of the washroom agree: same washroom, instant, final score,
    component scores and anomalies, and the profile of the configuration. *)
Theorem processing_keeps_views_consistent now data w wid :
  washroom_id_of data = Some wid -> wid <> "" ->
  let w' := process_sensor_data now data w in
  exists result,
    last (firestore_hygiene_logs w') = Some result
    /\ r_washroom_id result = wid /\ r_timestamp result = now
    /\ last_scores w' !! wid = Some (r_final_score result)
    /\ realtime_current w' !! wid
       = Some {| c_score := r_final_score result;
                 c_timestamp := now;
                 c_component_scores := r_component_scores result;
                 c_anomalies := r_anomalies result |}
    /\ washroom_configs w' !! wid = Some (config_of w wid)
    /\ r_profile result = default "public" (cfg_profile (config_of w wid)).
Proof.
  intros Hid Hne w'.
  destruct (process_sensor_data_scored now data w wid Hid Hne) as (Hl & Hs & _).
  destruct (process_sensor_data_effects now data w wid Hid Hne) as (Hc & _ & Hr & _).
  fold w' in Hl, Hs, Hc, Hr.
  exists (result_of now data wid w).
  rewrite Hl, Hs, Hc, Hr, last_snoc, !lookup_insert_eq.
  repeat split; reflexivity.
Qed.

Lemma processing_keeps_views_consistent_witness :
  exists result,
    last (firestore_hygiene_logs
            (process_sensor_data 7 {| washroom_id_of := Some "W1"; fields := dirty_reading |}
               empty_world)) = Some result
    /\ last_scores
         (process_sensor_data 7 {| washroom_id_of := Some "W1"; fields := dirty_reading |}
            empty_world) !! "W1" = Some (r_final_score result).
Proof.
  destruct (processing_keeps_views_consistent 7%Z
              {| washroom_id_of := Some "W1"; fields := dirty_reading |} empty_world "W1")
    as (r & H1 & _ & _ & H4 & _).
  - reflexivity.
  - discriminate.
  - exists r. split; assumption.
Defined.

(** X11.  Processing a reading of one washroom leaves the last score, the
    current state, the notifications and the configuration of every other
    washroom, and all cleaning times, as they were. *)
Theorem processing_is_local now data w wid other :
  washroom_id_of data = Some wid -> wid <> "" -> other <> wid ->
  let w' := process_sensor_data now data w in
  last_scores w' !! other = last_scores w !! other
  /\ realtime_current w' !! other = realtime_current w !! other
  /\ notifications_at w' other = notifications_at w other
  /\ washroom_configs w' !! other = washroom_configs w !! other
  /\ firestore_washroom_configs w' !! other = firestore_washroom_configs w !! other
  /\ last_cleaning_times w' = last_cleaning_times w.
Proof.
  intros Hid Hne Ho w'.
  destruct (process_sensor_data_scored now data w wid Hid Hne) as (_ & Hs & Hl & Hn).
  destruct (process_sensor_data_effects now data w wid Hid Hne) as (Hc & Hd & Hr & _).
  fold w' in Hs, Hl, Hn, Hc, Hd, Hr.
  rewrite Hs, Hc, Hd, Hr, !lookup_insert_ne by congruence.
  repeat split; try reflexivity; try exact Hl.
  - unfold notifications_at at 1. rewrite Hn.
    destruct (Qltb _ _); [|reflexivity].
    unfold get. now rewrite lookup_insert_ne by congruence.
  - now apply get_washroom_config_others.
Qed.

Lemma processing_is_local_witness :
  last_scores
    (process_sensor_data 7 {| washroom_id_of := Some "W2"; fields := dirty_reading |}
       strict_world) !! "W1" = last_scores strict_world !! "W1".
Proof.
  apply (processing_is_local 7%Z {| washroom_id_of := Some "W2"; fields := dirty_reading |}
           strict_world "W2" "W1"); [reflexivity|discriminate|discriminate].
Defined.

Lemma config_of_cached w wid config :
  washroom_configs w !! wid = Some config -> config_of w wid = config.
Proof. intros H. unfold config_of. now rewrite (get_washroom_config_hit wid w config H). Qed.

Lemma config_of_after_processing now data w wid :
  washroom_id_of data = Some wid -> wid <> "" ->
  config_of (process_sensor_data now data w) wid = config_of w wid.
Proof.
  intros Hid Hne. apply config_of_cached.
  destruct (process_sensor_data_effects now data w wid Hid Hne) as (Hc & _).
  rewrite Hc. apply lookup_insert_eq.
Qed.

(** X12.  Alerts are not deduplicated: the same reading processed twice while
    its final score is under the threshold pushes two notifications for the
    washroom, in order, the second with a score not above the first. *)
Theorem alerts_are_not_deduplicated now now' data w wid :
  washroom_id_of data = Some wid -> wid <> "" ->
  (now <= now')%Z ->
  r_final_score (result_of now data wid w) < threshold_of w wid ->
  let w1 := process_sensor_data now data w in
  let w2 := process_sensor_data now' data w1 in
  exists n1 n2,
    notifications_at w2 wid = (notifications_at w wid ++ [n1; n2])%list
    /\ n_timestamp n1 = now /\ n_timestamp n2 = now'
    /\ n_score n1 = r_final_score (result_of now data wid w)
    /\ n_score n2 <= n_score n1.
Proof.
  intros Hid Hne Hn Hlt w1 w2.
  destruct (process_sensor_data_scored now data w wid Hid Hne) as (_ & _ & Hc1 & Hn1).
  destruct (process_sensor_data_scored now' data w1 wid Hid Hne) as (_ & _ & _ & Hn2).
  fold w1 in Hc1, Hn1. fold w2 in Hn2.
  assert (Hcfg : config_of w1 wid = config_of w wid)
    by now apply config_of_after_processing.
  assert (Hfin : r_final_score (result_of now' data wid w1)
                 <= r_final_score (result_of now data wid w)).
  { unfold result_of, profile_of. rewrite Hcfg, Hc1. cbn [r_final_score].
    destruct (last_cleaning_times w !! wid) as [t|]; [|unfold apply_time_decay; lra].
    apply apply_time_decay_later;
      [apply base_score_nonneg|apply base_score_two_decimals|exact Hn]. }
  assert (Ht : threshold_of w1 wid = threshold_of w wid)
    by (unfold threshold_of; now rewrite Hcfg).
  assert (E1 : Qltb (r_final_score (result_of now data wid w)) (threshold_of w wid) = true)
    by now apply Qltb_lt.
  assert (E2 : Qltb (r_final_score (result_of now' data wid w1)) (threshold_of w1 wid) = true)
    by (apply Qltb_lt; rewrite Ht; lra).
  rewrite E1 in Hn1. rewrite E2 in Hn2.
  eexists _, _. split.
  - unfold notifications_at at 1. rewrite Hn2. unfold get at 1.
    rewrite lookup_insert_eq.
    unfold notifications_at at 1. rewrite Hn1. unfold get at 1.
    rewrite lookup_insert_eq, <- app_assoc. reflexivity.
  - cbn. repeat split; try reflexivity. exact Hfin.
Qed.

Lemma alerts_are_not_deduplicated_witness :
  exists n1 n2,
    notifications_at
      (process_sensor_data 8 {| washroom_id_of := Some "W1"; fields := dirty_reading |}
         (process_sensor_data 7 {| washroom_id_of := Some "W1"; fields := dirty_reading |}
            empty_world)) "W1" = [n1; n2].
Proof.
  destruct (alerts_are_not_deduplicated 7%Z 8%Z
              {| washroom_id_of := Some "W1"; fields := dirty_reading |} empty_world "W1")
    as (n1 & n2 & H & _).
  - reflexivity.
  - discriminate.
  - lia.
  - vm_compute. reflexivity.
  - exists n1, n2. exact H.
Defined.

(** X13.  The calls one reading makes to Firebase, in order: a read of the
    configuration when it is not cached, a write of the default one when
    there is no document, one log entry, one write of the current state, and
    one push when the final score is under the threshold.  The second lookup
    of the configuration, in [check_alerts], makes no call. *)
Theorem calls_of_a_reading now data w wid :
  washroom_id_of data = Some wid -> wid <> "" ->
  let w' := process_sensor_data now data w in
  let alerts := Qltb (r_final_score (result_of now data wid w)) (threshold_of w wid) in
  calls w' =
  (calls w
   ++ match washroom_configs w !! wid with
      | Some _ => []
      | None =>
          FirestoreGet "washroom_configs" wid ::
          match firestore_washroom_configs w !! wid with
          | Some _ => []
          | None => [FirestoreSet "washroom_configs" wid]
          end
      end
   ++ [FirestoreAdd "hygiene_logs"; RealtimeSet ("washrooms/" ++ wid ++ "/current")]
   ++ (if alerts then [RealtimePush ("notifications/" ++ wid)] else []))%list.
Proof.
  intros Hid Hne w' alerts.
  destruct (process_sensor_data_effects now data w wid Hid Hne) as (_ & _ & _ & Hcalls).
  exact Hcalls.
Qed.

Lemma calls_of_a_reading_witness :
  calls (process_sensor_data 7 {| washroom_id_of := Some "W1"; fields := scenario1 |}
           strict_world)
  = [FirestoreAdd "hygiene_logs"; RealtimeSet "washrooms/W1/current"].
Proof.
  rewrite (calls_of_a_reading 7%Z {| washroom_id_of := Some "W1"; fields := scenario1 |}
             strict_world "W1" eq_refl); [|discriminate].
  vm_compute. reflexivity.
Defined.

(** ** Runs of MQTT messages *)

(** The log and the cleaning times after one message. *)
Lemma on_mqtt_message_logs now msg b :
  let w := world_of b in
  let w' := world_of (on_mqtt_message now msg b) in
  firestore_hygiene_logs w'
  = (firestore_hygiene_logs w
     ++ match reading_of msg with
        | Some (wid, data) => [result_of now data wid w]
        | None => []
        end)%list
  /\ last_cleaning_times w' = last_cleaning_times w.
Proof.
  intros w w'. subst w w'.
  destruct (reading_of msg) as [[wid data]|] eqn:E.
  - destruct (on_mqtt_message_scored now msg b wid data E) as (Hid & Hne & ->).
    cbn [on_world world_of].
    destruct (process_sensor_data_scored now data (world_of b) wid Hid Hne)
      as (Hl & _ & Hc & _).
    split; assumption.
  - destruct (on_mqtt_message_unscored now msg b E) as (_ & Hc & _ & _ & Hl & _).
    rewrite Hl, app_nil_r. split; [reflexivity|exact Hc].
Qed.

Lemma run_logs msgs : forall b,
  let w := world_of b in
  let w' := world_of (loop_forever msgs b) in
  last_cleaning_times w' = last_cleaning_times w
  /\ exists new,
       firestore_hygiene_logs w' = (firestore_hygiene_logs w ++ new)%list
       /\ map (fun r => (r_timestamp r, r_washroom_id r)) new
          = omap (fun m => (fun wd => (m.1, wd.1)) <$> reading_of m.2) msgs
       /\ (last_cleaning_times w = ∅ ->
           Forall (fun r => r_final_score r = r_base_score r /\ r_decay_applied r == 0) new).
Proof.
  induction msgs as [|[now msg] msgs IH]; intros b w w'; subst w w'.
  - split; [reflexivity|]. exists []. rewrite app_nil_r. repeat split. constructor.
  - rewrite run_cons.
    destruct (IH (on_mqtt_message now msg b)) as (Hc & new & Hl & Hm & Hd).
    destruct (on_mqtt_message_logs now msg b) as (Hl1 & Hc1).
    split; [now rewrite Hc, Hc1|].
    eexists. split; [rewrite Hl, Hl1, <- app_assoc; reflexivity|].
    rewrite Hc1 in Hd.
    cbn [omap list_omap fst snd]. destruct (reading_of msg) as [[wid data]|] eqn:E; cbn.
    + split; [now rewrite Hm|]. intros He. constructor; [|now apply Hd].
      unfold result_of. cbn [r_final_score r_base_score r_decay_applied].
      rewrite He, lookup_empty. unfold apply_time_decay. split; [reflexivity|lra].
    + split; [exact Hm|exact Hd].
Qed.


(** X15.  No message changes the cleaning times, and when there is none at
    the start of a run every entry logged during it has its final score equal
    to its base score, with no decay. *)
Theorem decay_is_never_applied_without_a_cleaning_record msgs b :
  last_cleaning_times (world_of (loop_forever msgs b)) = last_cleaning_times (world_of b)
  /\ (last_cleaning_times (world_of b) = ∅ ->
      exists new,
        firestore_hygiene_logs (world_of (loop_forever msgs b))
        = (firestore_hygiene_logs (world_of b) ++ new)%list
        /\ Forall (fun r => r_final_score r = r_base_score r /\ r_decay_applied r == 0) new).
Proof.
  destruct (run_logs msgs b) as (Hc & new & Hl & _ & Hd).
  split; [exact Hc|]. intros He. exists new. split; [exact Hl|now apply Hd].
Qed.

Lemma print_console_prefix line w : console w `prefix_of` console (print line w).
Proof. cbn. unfold append. now apply prefix_app_r. Qed.

Lemma print_anomalies_console_prefix (anomalies : list anomaly) w :
  console w `prefix_of`
  console (fold_left (fun w anomaly =>
                        print ([Lit "   - "; Lit (a_type anomaly); Lit ": "]
                                 ++ a_message anomaly)%list w) anomalies w).
Proof.
  revert w. induction anomalies as [|a l IH]; intros w; simpl; [reflexivity|].
  etrans; [|apply IH]. apply print_console_prefix.
Qed.

Lemma print_report_console_prefix wid profile final base cs anomalies w :
  console w `prefix_of` console (print_report wid profile final base cs anomalies w).
Proof.
  unfold print_report.
  etrans; [|apply print_console_prefix].
  destruct anomalies as [|a l].
  - do 4 (etrans; [apply print_console_prefix|]). reflexivity.
  - etrans; [|apply print_anomalies_console_prefix].
    do 5 (etrans; [apply print_console_prefix|]). reflexivity.
Qed.

Lemma process_sensor_data_console_prefix now data w :
  console w `prefix_of` console (process_sensor_data now data w).
Proof.
  destruct (truth (washroom_id_of data)) eqn:Ht.
  - assert (exists wid, washroom_id_of data = Some wid /\ wid <> "") as (wid & Hid & Hne).
    { unfold truth in Ht. destruct (washroom_id_of data) as [wid|]; [|discriminate].
      exists wid. split; [reflexivity|]. intros ->. discriminate. }
    rewrite (process_sensor_data_steps now data w wid Hid Hne). cbv zeta.
    etrans; [|apply print_report_console_prefix].
    cbn [console set_last_scores].
    pose proof (get_washroom_config_frame wid w) as (_ & _ & _ & _ & _ & Hc).
    cbv zeta in Hc.
    destruct (Qltb _ _); unfold send_cleaner_notification, store_in_firebase;
      cbn [console print called set_realtime_notifications set_realtime_current
           set_firestore_hygiene_logs];
      rewrite Hc; [unfold append; now apply prefix_app_r|reflexivity].
  - rewrite process_sensor_data_dropped by exact Ht. apply print_console_prefix.
Qed.

Lemma grows_refl w : grows w w.
Proof. unfold grows. repeat split; reflexivity. Qed.

Lemma grows_trans w1 w2 w3 : grows w1 w2 -> grows w2 w3 -> grows w1 w3.
Proof.
  intros (A1 & A2 & A3 & A4) (B1 & B2 & B3 & B4).
  repeat split; [| intros wid; specialize (A2 wid); specialize (B2 wid) | |]; etrans; eauto.
Qed.

Lemma on_mqtt_message_grows now msg b :
  grows (world_of b) (world_of (on_mqtt_message now msg b)).
Proof.
  destruct (on_mqtt_message_logs now msg b) as (Hl & _).
  destruct (reading_of msg) as [[wid data]|] eqn:E.
  - destruct (on_mqtt_message_scored now msg b wid data E) as (Hid & Hne & Heq).
    rewrite Heq in *. cbn [on_world world_of] in *.
    destruct (process_sensor_data_scored now data (world_of b) wid Hid Hne)
      as (_ & _ & _ & Hn).
    destruct (process_sensor_data_effects now data (world_of b) wid Hid Hne)
      as (_ & _ & _ & Hc).
    repeat split.
    + rewrite Hl. now apply prefix_app_r.
    + intros wid'. unfold notifications_at at 2. rewrite Hn.
      destruct (Qltb _ _); [|reflexivity].
      unfold get at 1. destruct (decide (wid' = wid)) as [->|Hd].
      * rewrite lookup_insert_eq. now apply prefix_app_r.
      * rewrite lookup_insert_ne by congruence. reflexivity.
    + rewrite Hc. now apply prefix_app_r.
    + apply process_sensor_data_console_prefix.
  - destruct (on_mqtt_message_unscored now msg b E)
      as (_ & _ & _ & _ & Hlog & _ & Hn & (new & Hc & _) & Hcon).
    repeat split.
    + now rewrite Hlog.
    + intros wid. unfold notifications_at. now rewrite Hn.
    + rewrite Hc. now apply prefix_app_r.
    + exact Hcon.
Qed.

(** X16.  A run of MQTT messages only appends: the log, the notifications
    of every washroom, the calls and the console at its start are prefixes of
    those at its end. *)
Theorem run_only_appends msgs b :
  let w := world_of b in
  let w' := world_of (loop_forever msgs b) in
  firestore_hygiene_logs w `prefix_of` firestore_hygiene_logs w'
  /\ (forall wid, notifications_at w wid `prefix_of` notifications_at w' wid)
  /\ calls w `prefix_of` calls w'
  /\ console w `prefix_of` console w'.
Proof.
  revert b. induction msgs as [|[now msg] msgs IH]; intros b.
  - apply grows_refl.
  - rewrite run_cons.
    exact (grows_trans _ _ _ (on_mqtt_message_grows now msg b)
             (IH (on_mqtt_message now msg b))).
Qed.

Lemma occurrences_app c l1 l2 :
  occurrences c (l1 ++ l2) = (occurrences c l1 + occurrences c l2)%nat.
Proof. unfold occurrences. now rewrite filter_app, length_app. Qed.

Lemma occurrences_none c l : c ∉ l -> occurrences c l = 0%nat.
Proof.
  intros H. unfold occurrences. induction l as [|x l IH]; [reflexivity|].
  rewrite not_elem_of_cons in H. destruct H as [Hx Hl].
  rewrite filter_cons_False by congruence. now apply IH.
Qed.

Lemma occurrences_some c l : c ∈ l -> (0 < occurrences c l)%nat.
Proof.
  intros H. unfold occurrences. induction H as [x l|x y l _ IH].
  - rewrite filter_cons_True by reflexivity. simpl. lia.
  - destruct (decide (y = x)) as [->|Hne].
    + rewrite filter_cons_True by reflexivity. simpl. lia.
    + now rewrite filter_cons_False.
Qed.

Lemma config_calls_at_most_once w wid' c : (occurrences c (config_calls w wid') <= 1)%nat.
Proof.
  unfold config_calls, occurrences.
  destruct (washroom_configs w !! wid'); [simpl; lia|].
  destruct (firestore_washroom_configs w !! wid');
    rewrite !filter_cons, filter_nil; repeat case_decide; simpl; try lia; congruence.
Qed.

Lemma config_calls_only_uncached w wid wid' c :
  config_call wid c -> c ∈ config_calls w wid' ->
  wid' = wid /\ washroom_configs w !! wid = None.
Proof.
  unfold config_call, config_calls. intros Hc Hin.
  destruct (washroom_configs w !! wid') eqn:E; [now apply elem_of_nil in Hin|].
  assert (Hw : wid' = wid).
  { destruct (firestore_washroom_configs w !! wid');
      rewrite ?elem_of_cons in Hin;
      destruct Hc as [-> | ->];
      repeat match goal with
             | H : _ \/ _ |- _ => destruct H
             | H : _ ∈ [] |- _ => now apply elem_of_nil in H
             | H : _ = _ |- _ => (injection H as ->; reflexivity) || discriminate H
             end. }
  subst wid'. split; [reflexivity|exact E].
Qed.

Lemma scoring_calls_no_config wid wid' alerts c :
  config_call wid c -> c ∉ scoring_calls wid' alerts.
Proof.
  unfold config_call, scoring_calls. intros [-> | ->] Hin;
    destruct alerts; cbn in Hin; rewrite ?elem_of_cons in Hin;
    repeat match goal with
           | H : _ \/ _ |- _ => destruct H
           | H : _ ∈ [] |- _ => now apply elem_of_nil in H
           | H : _ = _ |- _ => discriminate H
           end.
Qed.

(** One message reads or creates the configuration of a washroom at most
    once, only when it is not cached, and caches it then; what is cached
    stays cached. *)
Lemma on_mqtt_message_config_calls wid now msg b c :
  config_call wid c ->
  let w := world_of b in
  let w' := world_of (on_mqtt_message now msg b) in
  exists new,
    calls w' = (calls w ++ new)%list
    /\ (occurrences c new <= 1)%nat
    /\ (c ∈ new -> washroom_configs w !! wid = None /\ is_Some (washroom_configs w' !! wid))
    /\ (is_Some (washroom_configs w !! wid) -> is_Some (washroom_configs w' !! wid)).
Proof.
  intros Hc w w'. subst w w'.
  destruct (reading_of msg) as [[wid' data]|] eqn:E.
  - destruct (on_mqtt_message_scored now msg b wid' data E) as (Hid & Hne & ->).
    cbn [on_world world_of].
    destruct (process_sensor_data_effects now data (world_of b) wid' Hid Hne)
      as (Hcfg & _ & _ & Hcalls).
    eexists. split; [exact Hcalls|].
    split; [|split].
    + rewrite occurrences_app, (occurrences_none c (scoring_calls _ _))
        by (now apply (scoring_calls_no_config wid)).
      pose proof (config_calls_at_most_once (world_of b) wid' c). lia.
    + rewrite elem_of_app. intros [Hin|Hin];
        [|now apply (scoring_calls_no_config wid wid' _ c Hc) in Hin].
      destruct (config_calls_only_uncached _ _ _ _ Hc Hin) as [-> Hnone].
      split; [exact Hnone|]. rewrite Hcfg, lookup_insert_eq. eauto.
    + intros Hs. rewrite Hcfg. destruct (decide (wid = wid')) as [->|Hd].
      * rewrite lookup_insert_eq. eauto.
      * now rewrite lookup_insert_ne by congruence.
  - destruct (on_mqtt_message_unscored now msg b E)
      as (Hcfg & _ & _ & _ & _ & _ & _ & (new & Hcalls & Hnew) & _).
    assert (Hnot : c ∉ new).
    { intros Hin. rewrite Forall_forall in Hnew.
      destruct (Hnew c Hin) as [path ->]. destruct Hc as [Hc|Hc]; discriminate Hc. }
    exists new. split; [exact Hcalls|].
    split; [rewrite occurrences_none by exact Hnot; lia|].
    split; [intros Hin; contradiction|now rewrite Hcfg].
Qed.

(** X17.  Over a whole run of MQTT messages the configuration of a washroom
    is read from Firestore at most once and created at most once, and neither
    when it was cached at the start. *)
Theorem config_is_read_and_created_at_most_once wid msgs : forall b,
  let read := FirestoreGet "washroom_configs" wid in
  let create := FirestoreSet "washroom_configs" wid in
  exists new,
    calls (world_of (loop_forever msgs b)) = (calls (world_of b) ++ new)%list
    /\ (occurrences read new <= 1)%nat
    /\ (occurrences create new <= 1)%nat
    /\ (is_Some (washroom_configs (world_of b) !! wid) -> (read ∉ new) /\ (create ∉ new)).
Proof.
  cbv zeta.
  assert (Hone : forall c, config_call wid c -> forall msgs b,
             exists new,
               calls (world_of (loop_forever msgs b)) = (calls (world_of b) ++ new)%list
               /\ (occurrences c new <= 1)%nat
               /\ (is_Some (washroom_configs (world_of b) !! wid) -> c ∉ new)).
  { intros c Hc. clear msgs. induction msgs as [|[now msg] msgs IH]; intros b.
    - exists []. rewrite app_nil_r. repeat split; [unfold occurrences; simpl; lia|].
      intros _ Hin. now apply elem_of_nil in Hin.
    - rewrite run_cons.
      destruct (on_mqtt_message_config_calls wid now msg b c Hc)
        as (new1 & Hc1 & Ho1 & Hin1 & Hkeep).
      destruct (IH (on_mqtt_message now msg b)) as (new2 & Hc2 & Ho2 & Hin2).
      exists (new1 ++ new2)%list.
      split; [rewrite Hc2, Hc1, <- app_assoc; reflexivity|].
      split.
      + rewrite occurrences_app.
        destruct (decide (c ∈ new1)) as [Hin|Hout].
        * destruct (Hin1 Hin) as [_ Hcached].
          rewrite (occurrences_none c new2) by now apply Hin2. lia.
        * rewrite (occurrences_none c new1) by exact Hout. lia.
      + intros Hs. rewrite not_elem_of_app. split.
        * intros Hin. destruct (Hin1 Hin) as [Hnone _].
          rewrite Hnone in Hs. now destruct Hs.
        * apply Hin2, Hkeep, Hs. }
  intros b.
  destruct (Hone _ (or_introl eq_refl) msgs b) as (new & Hc & Ho & Hn).
  destruct (Hone _ (or_intror eq_refl) msgs b) as (new' & Hc' & Ho' & Hn').
  assert (new' = new) by (rewrite Hc in Hc'; now apply app_inv_head in Hc'). subst new'.
  exists new. repeat split; auto.
Qed.

(** ** The dashboard *)

Lemma status_cases score :
  (70 <= score /\ status score = "🟢 GOOD")
  \/ (50 <= score /\ score < 70 /\ status score = "🟡 FAIR")
  \/ (score < 50 /\ status score = "🔴 POOR").
Proof.
  unfold status.
  destruct (Qleb 70 score) eqn:E1; [Qreflect; auto|].
  destruct (Qleb 50 score) eqn:E2; Qreflect; auto.
Qed.

(** X18.  The dashboard labels a score GOOD from 70, FAIR from 50 and POOR
    under 50; for a washroom with the default threshold, a final score is
    labelled POOR exactly when it makes [check_alerts] push a notification. *)
Theorem dashboard_poor_means_alert now result w :
  let score := r_final_score result in
  (status score = "🟢 GOOD" <-> 70 <= score)
  /\ (status score = "🟡 FAIR" <-> 50 <= score /\ score < 70)
  /\ (status score = "🔴 POOR" <-> score < 50)
  /\ (threshold_of w (r_washroom_id result) == HYGIENE_THRESHOLD ->
      (status score = "🔴 POOR"
       <-> realtime_notifications (check_alerts now result w) <> realtime_notifications w)).
Proof.
  intros score.
  assert (Hpoor : status score = "🔴 POOR" <-> score < 50).
  { destruct (status_cases score) as [[H ->]|[(H1 & H2 & ->)|[H ->]]];
      (split; [intros E; try discriminate E; try exact H|intros E; try reflexivity; lra]). }
  split; [|split; [|split; [exact Hpoor|]]].
  - destruct (status_cases score) as [[H ->]|[(H1 & H2 & ->)|[H ->]]];
      (split; [intros E; try discriminate E; try exact H|intros E; try reflexivity; lra]).
  - destruct (status_cases score) as [[H ->]|[(H1 & H2 & ->)|[H ->]]];
      (split; [intros E; try discriminate E; auto|intros [E1 E2]; try reflexivity; lra]).
  - intros Ht. rewrite Hpoor.
    pose proof (check_alerts_notifications now result w) as Hn. cbv zeta in Hn.
    fold score in Hn. rewrite Hn. unfold HYGIENE_THRESHOLD in Ht.
    destruct (Qltb score _) eqn:E; Qreflect.
    + split; [intros _; apply insert_at_changes|intros _; lra].
    + split; [intros H; lra|intros H; contradiction].
Qed.

Lemma dashboard_poor_means_alert_witness :
  let result :=
    result_of 0 {| washroom_id_of := Some "W1"; fields := dirty_reading |} "W1" empty_world in
  status (r_final_score result) = "🔴 POOR"
  /\ realtime_notifications (check_alerts 0 result empty_world)
     <> realtime_notifications empty_world.
Proof.
  intros result.
  assert (H : status (r_final_score result) = "🔴 POOR") by (vm_compute; reflexivity).
  split; [exact H|].
  apply (proj2 (proj2 (proj2 (dashboard_poor_means_alert 0%Z result empty_world)))).
  - vm_compute. reflexivity.
  - exact H.
Defined.

Lemma dashboard_lines (l : list (string * Q)) w :
  let w' := fold_left (fun w '(washroom_id, score) =>
                         print [Lit washroom_id; Lit ": "; Fmt score ""; Lit "% ";
                                Lit (status score)] w) l w in
  stores w' = stores w
  /\ console w' = (console w ++ map (fun kv => dashboard_line kv.1 kv.2) l)%list.
Proof.
  revert w. induction l as [|[k v] l IH]; intros w; cbn [fold_left map].
  - now rewrite app_nil_r.
  - destruct (IH (print [Lit k; Lit ": "; Fmt v ""; Lit "% "; Lit (status v)] w)) as [Hs Hc].
    cbv zeta. rewrite Hs, Hc. split; [reflexivity|].
    cbn [console print]. unfold append. now rewrite <- app_assoc.
Qed.

Lemma console_dashboard_console w :
  last_scores w <> ∅ ->
  stores (console_dashboard w) = stores w
  /\ console (console_dashboard w)
     = (console w
        ++ [[Lit (newline ++ str_mul "=" 70)]; [Lit "📊 LIVE HYGIENE DASHBOARD"];
            [Lit (str_mul "=" 70)]]
        ++ map (fun kv => dashboard_line kv.1 kv.2) (map_to_list (last_scores w))
        ++ [[Lit (str_mul "=" 70 ++ newline)]])%list.
Proof.
  intros Hne. unfold console_dashboard. rewrite decide_False by exact Hne.
  match goal with
  | |- context [fold_left ?f ?l ?w0] =>
      destruct (dashboard_lines l w0) as [Hs Hc]
  end.
  cbv zeta in Hs, Hc. cbn [last_scores print] in *.
  split.
  - rewrite print_stores. rewrite Hs. reflexivity.
  - cbn [console print]. rewrite Hc. cbn [console print]. unfold append.
    rewrite <- !app_assoc. reflexivity.
Qed.

(** X19.  The dashboard changes nothing but the console, prints nothing while
    no score is cached, has a line for every cached score, and after a reading
    is processed shows the final score of that reading for its washroom. *)
Theorem dashboard_shows_the_cached_scores w :
  stores (console_dashboard w) = stores w
  /\ (last_scores w = ∅ -> console_dashboard w = w)
  /\ (forall wid score,
        last_scores w !! wid = Some score ->
        dashboard_line wid score ∈ console (console_dashboard w))
  /\ (forall now data wid,
        washroom_id_of data = Some wid -> wid <> "" ->
        dashboard_line wid (r_final_score (result_of now data wid w))
        ∈ console (console_dashboard (process_sensor_data now data w))).
Proof.
  assert (Hline : forall w wid score,
             last_scores w !! wid = Some score ->
             dashboard_line wid score ∈ console (console_dashboard w)).
  { intros w0 wid score Hs.
    assert (Hne : last_scores w0 <> ∅) by (intros E; rewrite E, lookup_empty in Hs; discriminate).
    destruct (console_dashboard_console w0 Hne) as [_ ->].
    rewrite !elem_of_app. right. right. left.
    apply (list_elem_of_fmap_2 (fun kv => dashboard_line kv.1 kv.2) _ (wid, score)).
    now apply elem_of_map_to_list. }
  split; [|split; [|split; [apply Hline|]]].
  - destruct (decide (last_scores w = ∅)) as [E|E].
    + unfold console_dashboard. now rewrite decide_True by exact E.
    + now apply console_dashboard_console.
  - intros E. unfold console_dashboard. now rewrite decide_True by exact E.
  - intros now data wid Hid Hne. apply Hline.
    destruct (process_sensor_data_scored now data w wid Hid Hne) as (_ & Hs & _).
    rewrite Hs. apply lookup_insert_eq.
Qed.

(** ** The daily export *)

Lemma DAY_pos : (0 < DAY)%Z.
Proof. reflexivity. Qed.

Lemma date_window d t :
  (combine d min_time <= t /\ t <= combine d max_time)%Z <-> date_of t = d.
Proof.
  unfold combine, min_time, max_time, date_of.
  pose proof DAY_pos as HD. generalize dependent DAY. intros D HD.
  split.
  - intros [H1 H2]. symmetry. apply (Z.div_unique t D d (t - d * D)); lia.
  - intros <-. pose proof (Z.div_mod t D ltac:(lia)) as Hdm.
    pose proof (Z.mod_pos_bound t D HD). lia.
Qed.

Lemma date_of_combine d time :
  (0 <= time < DAY)%Z -> date_of (combine d time) = d.
Proof.
  intros H. apply date_window. unfold combine, min_time, max_time. lia.
Qed.

Lemma date_of_tomorrow now : date_of (now + DAY) = (date_of now + 1)%Z.
Proof.
  unfold date_of. replace (now + DAY)%Z with (now + 1 * DAY)%Z by lia.
  apply Z.div_add. pose proof DAY_pos. lia.
Qed.

Lemma rows_fold logs : forall rows0 count0,
  fold_left (fun '(rows, count) log => (append rows (row_of log), S count))
            logs (rows0, count0)
  = ((rows0 ++ map row_of logs)%list, (count0 + length logs)%nat).
Proof.
  induction logs as [|r logs IH]; intros rows0 count0; cbn [fold_left map length].
  - now rewrite app_nil_r, Nat.add_0_r.
  - rewrite IH. unfold append. rewrite <- app_assoc. f_equal. lia.
Qed.

#[local] Instance by_timestamp_transitive : Transitive by_timestamp.
Proof. unfold by_timestamp. intros x y z. lia. Qed.

#[local] Instance by_timestamp_total : Total by_timestamp.
Proof. unfold by_timestamp. intros x y. lia. Qed.

(** What an export leaves behind. *)
Lemma generate_csv_log_effects d b :
  let b' := generate_csv_log d b in
  let logs := merge_sort by_timestamp (logs_of d (world_of b)) in
  csv_files b' = <[d := {| fieldnames := csv_header; rows := map row_of logs |}]> (csv_files b)
  /\ last_heartbeats b' = last_heartbeats b
  /\ stores (world_of b') = stores (world_of b)
  /\ console (world_of b')
     = (console (world_of b)
        ++ [[Lit "📝 Generating CSV log for "; Fmt (inject_Z d) ""];
            [Lit "✓ CSV log generated: "; Lit CSV_LOG_DIR; Lit "/hygiene_log_";
             Fmt (inject_Z d) ""; Lit ".csv"; Lit " (";
             Fmt (inject_Z (Z.of_nat (length logs))) ""; Lit " records)"]])%list.
Proof.
  intros b' logs. subst b'. unfold generate_csv_log.
  cbn [on_world world_of last_heartbeats csv_files print firestore_hygiene_logs].
  assert (Hf : filter (fun log => (combine d min_time <= r_timestamp log)%Z
                                  /\ (r_timestamp log <= combine d max_time)%Z)
                 (firestore_hygiene_logs (world_of b))
               = logs_of d (world_of b)).
  { unfold logs_of. apply list_filter_iff. intros r. apply date_window. }
  rewrite Hf. fold logs. rewrite rows_fold.
  cbn [on_world world_of last_heartbeats csv_files print console app].
  repeat split. unfold append. rewrite <- app_assoc. reflexivity.
Qed.

(** X20.  The file exported for a date holds the header and one row for each
    logged result whose instant falls on that date, and no other, in the order
    of their instants; the count it prints is the number of rows; the rest of
    the state is untouched. *)
Theorem csv_export_holds_the_logs_of_the_day d b :
  exists logs,
    csv_files (generate_csv_log d b) !! d
    = Some {| fieldnames := csv_header; rows := map row_of logs |}
    /\ logs ≡ₚ logs_of d (world_of b)
    /\ StronglySorted by_timestamp logs
    /\ (forall r, r ∈ logs
                  <-> r ∈ firestore_hygiene_logs (world_of b) /\ date_of (r_timestamp r) = d)
    /\ (exists line,
          last (console (world_of (generate_csv_log d b))) = Some line
          /\ Fmt (inject_Z (Z.of_nat (length logs))) "" ∈ line)
    /\ stores (world_of (generate_csv_log d b)) = stores (world_of b).
Proof.
  destruct (generate_csv_log_effects d b) as (Hf & _ & Hs & Hc). cbv zeta in Hf, Hc.
  exists (merge_sort by_timestamp (logs_of d (world_of b))).
  split; [rewrite Hf; apply lookup_insert_eq|].
  split; [apply merge_sort_Permutation|].
  split; [apply StronglySorted_merge_sort; apply _|].
  split.
  { intros r. rewrite merge_sort_Permutation. unfold logs_of.
    rewrite list_elem_of_filter. tauto. }
  split; [|exact Hs].
  eexists. rewrite Hc. split.
  - rewrite last_app. cbn. reflexivity.
  - set_solver.
Qed.

(** X21.  Exporting a date again gives the same files, and an export writes
    the file of its date only. *)
Theorem csv_export_can_be_repeated d b :
  csv_files (generate_csv_log d (generate_csv_log d b)) = csv_files (generate_csv_log d b)
  /\ (forall d', d' <> d -> csv_files (generate_csv_log d b) !! d' = csv_files b !! d')
  /\ (forall d', d' <> d ->
        csv_files (generate_csv_log d' (generate_csv_log d b)) !! d
        = csv_files (generate_csv_log d b) !! d).
Proof.
  destruct (generate_csv_log_effects d b) as (Hf & _ & Hs & _). cbv zeta in Hf.
  assert (Hl : forall d', logs_of d' (world_of (generate_csv_log d b))
                          = logs_of d' (world_of b)).
  { intros d'. unfold logs_of. unfold stores in Hs. now injection Hs as _ _ _ _ -> _ _ _. }
  split; [|split].
  - destruct (generate_csv_log_effects d (generate_csv_log d b)) as (Hf' & _).
    cbv zeta in Hf'. rewrite Hf', Hl, Hf. apply insert_insert_eq.
  - intros d' Hd. rewrite Hf. now apply lookup_insert_ne.
  - intros d' Hd.
    destruct (generate_csv_log_effects d' (generate_csv_log d b)) as (Hf' & _).
    cbv zeta in Hf'. rewrite Hf'. now apply lookup_insert_ne.
Qed.

Arguments generate_csv_log : simpl never.

Lemma sleep_microseconds now :
  let midnight := combine (date_of now + 1) min_time in
  sleep_seconds now = total_seconds (midnight - now)
  /\ (0 < midnight - now <= DAY)%Z
  /\ (midnight - now = DAY <-> now = combine (date_of now) min_time)%Z.
Proof.
  intros midnight. subst midnight. unfold sleep_seconds.
  rewrite date_of_tomorrow. split; [reflexivity|].
  unfold combine, min_time, date_of.
  pose proof DAY_pos as HD. generalize dependent DAY. intros D HD.
  pose proof (Z.div_mod now D ltac:(lia)) as Hdm.
  pose proof (Z.mod_pos_bound now D HD). split; [|split]; nia.
Qed.

(** X22.  The daily logger sleeps more than 0 and at most 86400 seconds, up to
    the midnight that starts the next day, and a whole day exactly when it is
    started at a midnight. *)
Theorem logger_sleeps_until_next_midnight now :
  let midnight := combine (date_of now + 1) min_time in
  0 < sleep_seconds now <= 86400
  /\ inject_Z now + sleep_seconds now * 1000000 == inject_Z midnight
  /\ date_of midnight = (date_of now + 1)%Z
  /\ (sleep_seconds now == 86400 <-> now = combine (date_of now) min_time).
Proof.
  intros midnight. destruct (sleep_microseconds now) as (Hs & [Hlo Hhi] & Hfull).
  fold midnight in Hs, Hlo, Hhi, Hfull. rewrite Hs. unfold total_seconds.
  assert (Hq : inject_Z (midnight - now) == inject_Z midnight - inject_Z now).
  { unfold Z.sub. rewrite inject_Z_plus, inject_Z_opp. reflexivity. }
  assert (H0 : 0 < inject_Z (midnight - now)).
  { change 0 with (inject_Z 0). rewrite <- Zlt_Qlt. exact Hlo. }
  assert (H1 : inject_Z (midnight - now) <= inject_Z DAY).
  { rewrite <- Zle_Qle. exact Hhi. }
  assert (HD : inject_Z DAY == 86400 * 1000000) by reflexivity.
  split; [split|split; [|split]].
  - apply Qlt_shift_div_l; lra.
  - apply Qle_shift_div_r; lra.
  - rewrite Hq. field.
  - apply date_of_combine. unfold min_time. pose proof DAY_pos. lia.
  - rewrite <- Hfull. split.
    + intros E. apply inject_Z_injective. rewrite HD.
      assert (Hm : inject_Z (midnight - now)
                   == inject_Z (midnight - now) / 1000000 * 1000000) by field.
      rewrite Hm, E. reflexivity.
    + intros ->. reflexivity.
Qed.

(** X23.  When the daily logger wakes up, at the midnight that starts a day,
    it writes the file of the date two days before, from the clock reading
    taken before the sleep: the file of the day that has just ended is not
    written then. *)
Theorem daily_export_is_a_day_behind now b :
  let wake := combine (date_of now + 1) min_time in
  let b' := daily_csv_logger_wake now b in
  (exists logs,
     csv_files b' !! (date_of wake - 2)%Z
     = Some {| fieldnames := csv_header; rows := map row_of logs |}
     /\ logs ≡ₚ logs_of (date_of wake - 2) (world_of b))
  /\ (forall d, d <> (date_of wake - 2)%Z -> csv_files b' !! d = csv_files b !! d)
  /\ csv_files b' !! (date_of wake - 1)%Z = csv_files b !! (date_of wake - 1)%Z
  /\ (date_of wake - 1)%Z = date_of now.
Proof.
  intros wake b'. subst b'. unfold daily_csv_logger_wake.
  assert (Hw : date_of wake = (date_of now + 1)%Z).
  { apply date_of_combine. unfold min_time. pose proof DAY_pos. lia. }
  rewrite Hw. replace (date_of now + 1 - 2)%Z with (date_of now - 1)%Z by lia.
  replace (date_of now + 1 - 1)%Z with (date_of now) by lia.
  destruct (generate_csv_log_effects (date_of now - 1) b) as (Hf & _). cbv zeta in Hf.
  rewrite Hf. split; [|split; [|split]].
  - eexists. split; [apply lookup_insert_eq|apply merge_sort_Permutation].
  - intros d Hd. now apply lookup_insert_ne.
  - apply lookup_insert_ne. lia.
  - reflexivity.
Qed.

Lemma run_logged msgs : forall b now msg wid data,
  (now, msg) ∈ msgs -> reading_of msg = Some (wid, data) ->
  exists w, result_of now data wid w ∈ firestore_hygiene_logs (world_of (loop_forever msgs b)).
Proof.
  induction msgs as [|[now0 msg0] msgs IH]; intros b now msg wid data Hin Hr.
  - now apply elem_of_nil in Hin.
  - rewrite run_cons. apply elem_of_cons in Hin as [[= -> ->]|Hin].
    + exists (world_of b).
      destruct (run_logs msgs (on_mqtt_message now0 msg0 b)) as (_ & new & -> & _).
      destruct (on_mqtt_message_logs now0 msg0 b) as (-> & _). rewrite Hr.
      set_solver.
    + now apply (IH _ now msg wid data).
Qed.



(** ** Heartbeats *)

Lemma on_mqtt_message_heartbeats now msg b :
  last_heartbeats (on_mqtt_message now msg b)
  = match heartbeat_of now msg with
    | Some (path, h) => <[path := h]> (last_heartbeats b)
    | None => last_heartbeats b
    end.
Proof.
  unfold on_mqtt_message, heartbeat_of. destruct msg as [e|m]; [reflexivity|].
  destruct (type_of m) as [type|]; cbn [fmap option_fmap option_map from_option default];
    [|reflexivity].
  unfold id. rewrite (String.eqb_sym "heartbeat" type).
  destruct (String.eqb type "heartbeat"); reflexivity.
Qed.

Lemma heartbeat_not_scored now msg :
  is_Some (heartbeat_of now msg) -> reading_of msg = None.
Proof.
  unfold heartbeat_of, reading_of. destruct msg as [e|m]; [reflexivity|].
  destruct (default false _); [reflexivity|]. intros [x Hx]. discriminate.
Qed.

(** X25.  After a run of MQTT messages the heartbeat stored under a path is the
    one of the last heartbeat message for that path, or the one stored before
    when there was none; a heartbeat message changes no score, log entry,
    notification or configuration. *)
Theorem latest_heartbeat_is_kept msgs : forall b path,
  last_heartbeats (loop_forever msgs b) !! path
  = match last (filter (fun ph => ph.1 = path)
                       (omap (fun m => heartbeat_of m.1 m.2) msgs)) with
    | Some ph => Some ph.2
    | None => last_heartbeats b !! path
    end
  /\ Forall (fun m => is_Some (heartbeat_of m.1 m.2) ->
                      forall b, quiet (world_of b) (world_of (on_mqtt_message m.1 m.2 b)))
            msgs.
Proof.
  induction msgs as [|[now msg] msgs IH]; intros b path.
  - split; [reflexivity|constructor].
  - rewrite run_cons. destruct (IH (on_mqtt_message now msg b) path) as [-> Hq].
    split.
    + rewrite on_mqtt_message_heartbeats. cbn [omap list_omap fst snd].
      destruct (heartbeat_of now msg) as [[p h]|]; [|reflexivity].
      rewrite filter_cons. cbn [fst]. destruct (decide (p = path)) as [->|Hne].
      * rewrite last_cons.
        destruct (last _); [reflexivity|]. cbn [snd]. apply lookup_insert_eq.
      * destruct (last _); [reflexivity|]. now apply lookup_insert_ne.
    + constructor; [|exact Hq]. cbn [fst snd]. intros Hh b0.
      apply on_mqtt_message_unscored. now apply (heartbeat_not_scored now).
Qed.

